(** * Z-Wave backend (backend.py): a shallow embedding and its properties

    The development embeds the class [Backend] of [backend.py] and its
    subclasses [Backend_with_sensors] and [Backend_with_dimmers]:

    - Python values are the inductive [pyval]; integers are [Z], floats
      are binary64 ([PrimFloat]), with Python's arithmetic written out;
    - a method is a function in the monad [M]: it takes the state of the
      process and of the instance ([world]) and gives back an [outcome]
      (a returned value or a raised exception) and the new state;
    - the OpenZWave driver ([ZWaveNetwork], [ZWaveNode], [ZWaveValue]) is
      an external collaborator: its objects are records, the commands sent
      to it are recorded in a trace, and what it answers asynchronously
      (readiness, notifications) or what the operating system answers (the
      clock) is read from oracles indexed by the number of reads so far;
    - dictionaries whose order is observable are association lists in
      insertion order (CPython 3.7 and later); [self.timestamps], whose
      order is never observed, is a [gmap];
    - calls on the logger are recorded with their format string and
      arguments; filtering by level is the logging module's business.

    Methods that no property below needs (configuration dumps, the lists
    of sensors and dimmers, name, location and parameter accessors,
    resets) are left out. *)

From Stdlib Require Import ZArith Floats Sorting.Sorted Permutation.
From stdpp Require Import gmap strings list sorting pretty.

Open Scope Z_scope.

(** ** Python values *)

#[warnings="-register-all"]
Inductive pyval : Type :=
| PyNone
| PyBool (b : bool)
| PyInt (z : Z)
| PyFloat (f : float)
| PyStr (s : string)
| PyTuple (l : list pyval)
| PySet (l : list pyval)
| PyDict (d : list (string * pyval)).

Inductive exn : Type :=
| RuntimeError (msg : string)
| AttributeError (msg : string)
| TypeError (msg : string)
| ValueError (msg : string)
| OverflowError (msg : string)
| ZeroDivisionError (msg : string)
| IndexError (msg : string).

Inductive outcome (A : Type) : Type :=
| Return (a : A)
| Raise (e : exn).
Arguments Return {A} a.
Arguments Raise {A} e.

Definition obind {A B : Type} (o : outcome A) (k : A -> outcome B) : outcome B :=
  match o with
  | Return a => k a
  | Raise e => Raise e
  end.

(** *** Numbers

    [int] is unbounded, [float] is binary64.  A mixed operation converts
    the integer operand to the nearest float, and [int / int] is the
    correctly rounded quotient; both raise [OverflowError] beyond the
    range of binary64. *)

Definition Z2SF (z : Z) : spec_float :=
  match z with
  | Z0 => S754_zero false
  | Zpos p => S754_finite false p 0
  | Zneg p => S754_finite true p 0
  end.

Definition float_of_Z (z : Z) : outcome float :=
  let f := SF2Prim (binary_normalize prec emax z 0 false) in
  if PrimFloat.is_infinity f
  then Raise (OverflowError "int too large to convert to float")
  else Return f.

Definition int_truediv (a b : Z) : outcome pyval :=
  if b =? 0 then Raise (ZeroDivisionError "division by zero")
  else
    let q := SF2Prim (SFdiv prec emax (Z2SF a) (Z2SF b)) in
    if PrimFloat.is_infinity q
    then Raise (OverflowError "integer division result too large for a float")
    else Return (PyFloat q).

Definition float_truediv (a b : float) : outcome pyval :=
  if PrimFloat.eqb b 0%float
  then Raise (ZeroDivisionError "float division by zero")
  else Return (PyFloat (a / b)%float).

(** The numeric view of a value: [bool] is a subclass of [int]. *)
Definition as_num (v : pyval) : option (Z + float) :=
  match v with
  | PyBool b => Some (inl (Z.b2z b))
  | PyInt z => Some (inl z)
  | PyFloat f => Some (inr f)
  | _ => None
  end.

Definition py_arith (op : string)
    (iop : Z -> Z -> outcome pyval) (fop : float -> float -> outcome pyval)
    (a b : pyval) : outcome pyval :=
  match as_num a, as_num b with
  | Some (inl x), Some (inl y) => iop x y
  | Some (inr x), Some (inr y) => fop x y
  | Some (inl x), Some (inr y) => obind (float_of_Z x) (fun x' => fop x' y)
  | Some (inr x), Some (inl y) => obind (float_of_Z y) (fun y' => fop x y')
  | _, _ => Raise (TypeError ("unsupported operand type(s) for " +:+ op))
  end.

Definition py_sub : pyval -> pyval -> outcome pyval :=
  py_arith "-" (fun x y => Return (PyInt (x - y)))
               (fun x y => Return (PyFloat (x - y)%float)).

Definition py_mul : pyval -> pyval -> outcome pyval :=
  py_arith "*" (fun x y => Return (PyInt (x * y)))
               (fun x y => Return (PyFloat (x * y)%float)).

Definition py_truediv : pyval -> pyval -> outcome pyval :=
  py_arith "/" int_truediv float_truediv.

(** [int(x)] of a float: truncation towards zero. *)
Definition py_int (f : float) : outcome Z :=
  match Prim2SF f with
  | S754_zero _ => Return 0
  | S754_finite s m e =>
      let a := match e with
               | Zneg k => Z.pos m / 2 ^ Z.pos k
               | _ => Z.pos m * 2 ^ e
               end in
      Return (if s then - a else a)
  | S754_infinity _ => Raise (OverflowError "cannot convert float infinity to integer")
  | S754_nan => Raise (ValueError "cannot convert float NaN to integer")
  end.

(** [f > z] for a float and an integer: Python compares the two exactly. *)
Definition float_gt_Z (f : float) (z : Z) : bool :=
  match Prim2SF f with
  | S754_zero _ => bool_decide (z < 0)
  | S754_finite s m e =>
      let sm := if s then Z.neg m else Z.pos m in
      match e with
      | Zneg k => bool_decide (z * 2 ^ Z.pos k < sm)
      | _ => bool_decide (z < sm * 2 ^ e)
      end
  | S754_infinity s => negb s
  | S754_nan => false
  end.

(** ** Functions of the module *)

(** [f_to_c]: [(temperature - 32)*5/9]. *)
Definition f_to_c (temperature : pyval) : outcome pyval :=
  obind (py_sub temperature (PyInt 32)) (fun d =>
  obind (py_mul d (PyInt 5)) (fun p =>
  py_truediv p (PyInt 9))).

(** ** Dictionaries in insertion order

    [d[k] = v] replaces the value of a key already present, in place, and
    appends a new key at the end. *)

Section Dict.
Context {K V : Type} `{EqDecision K}.

Fixpoint dict_set (k : K) (v : V) (d : list (K * V)) : list (K * V) :=
  match d with
  | [] => [(k, v)]
  | (k', v') :: d' =>
      if decide (k = k') then (k', v) :: d' else (k', v') :: dict_set k v d'
  end.

(** [dict(items)] and [OrderedDict(items)]: the items inserted in turn. *)
Definition dict_of_items (items : list (K * V)) : list (K * V) :=
  foldl (fun d kv => dict_set kv.1 kv.2 d) [] items.

Definition dict_keys (d : list (K * V)) : list K := d.*1.
Definition dict_values (d : list (K * V)) : list V := d.*2.

Fixpoint dict_get (k : K) (d : list (K * V)) : option V :=
  match d with
  | [] => None
  | (k', v) :: d' => if decide (k = k') then Some v else dict_get k d'
  end.

(** What a [dict] object guarantees: no key occurs twice. *)
Definition dict_wf (d : list (K * V)) : Prop := NoDup (dict_keys d).
End Dict.

(** ** The driver's objects (python-openzwave) *)

(** [ZWaveValue]: the attributes the backend reads. *)
Record ZWaveValue : Type := {
  value_id : Z;
  label : string;
  units : string;
  data : pyval;
  command_class : Z;
  genre : string;
  is_read_only : bool;
  is_write_only : bool
}.

(** [ZWaveNode].  [obj] is the identity of the Python object ([id(node)]):
    nodes are compared by identity.  [values] is the dictionary of the
    node's values by value id, [to_dict] what [node.to_dict()] returns. *)
Record ZWaveNode : Type := {
  obj : positive;
  node_id : Z;
  is_ready : bool;
  type : string;
  location : string;
  name : string;
  product_name : string;
  neighbors : list Z;
  values : list (Z * ZWaveValue);
  to_dict : list (string * pyval)
}.

(** Commands submitted to the driver. *)
Inductive driver_cmd : Type :=
| NetStart
| NetStop
| CtlAddNode
| CtlRemoveNode
| CtlCancelCommand
| NodeSetDimmer (nid : Z) (vid : Z) (level : pyval).

(** Notifications the driver sends through the dispatcher. *)
Inductive notification : Type :=
| SIGNAL_NETWORK_STARTED
| SIGNAL_NETWORK_READY
| SIGNAL_NETWORK_RESETTED
| SIGNAL_NODE_ADDED (n : ZWaveNode)
| SIGNAL_NODE_REMOVED (n : ZWaveNode)
| SIGNAL_VALUE (n : ZWaveNode) (v : ZWaveValue).

(** [ZWaveNetwork].  [state] and [nodes] are the driver's current view.
    The property [is_ready] changes behind the caller's back: its k-th
    read gives [ready_oracle k].  [add_node_reply] and [remove_node_reply]
    are what the controller answers to the next inclusion and exclusion
    command, [stop_reply] is the text of the exception [stop()] raises, if
    it raises one.  [deliveries k] are the notifications the dispatcher thread
    hands to the handlers before the k-th evaluation of a wait-loop
    condition. *)
Record ZWaveNetwork : Type := {
  home_id : Z;
  state : Z;
  STATE_STARTED : Z;
  nodes : list (Z * ZWaveNode);
  nodes_count : Z;
  ready_oracle : nat -> bool;
  ready_reads : nat;
  add_node_reply : bool;
  remove_node_reply : bool;
  stop_reply : option string;
  deliveries : nat -> list notification;
  delivered : nat;
  commands : list driver_cmd
}.

(** ** Logging *)

Inductive log_level : Type := DEBUG | INFO | WARNING.

Inductive log_arg : Type :=
| AInt (z : Z)
| AStr (s : string)
| AOptInt (o : option Z)
| ANodes (d : list (Z * ZWaveNode))
| ATimestamps (t : gmap string (option Z)).

Record log_record : Type := {
  level : log_level;
  fmt : string;
  args : list log_arg
}.

(** ** State of the program *)

(** An instance of [Backend]: the attributes set in [__init__].  The two
    patterns [re_dimmer] and [re_sensor] come from the configuration
    module, which is not part of the sources at hand: the fields hold the
    predicate a pattern denotes, [re.search(pattern, s, re.I)] finding a
    match in [s].  [connected] tells whether [_network_ready] has
    registered the node and value handlers with the dispatcher. *)
Record Backend : Type := {
  re_dimmer : string -> bool;
  re_sensor : string -> bool;
  controller_name : string;
  network_ready_timeout : Z;
  controller_operation_timeout : Z;
  network : ZWaveNetwork;
  node_added : option ZWaveNode;
  node_removed : option ZWaveNode;
  timestamps : gmap string (option Z);
  connected : bool
}.

(** What all instances share: the module's global [started], the module's
    logger, the standard output, and the operating system's clock (its
    k-th read gives [clock k]) and sleeps. *)
Record process : Type := {
  started : bool;
  log : list log_record;
  stdout : list string;
  clock : nat -> float;
  clock_reads : nat;
  sleeps : list float
}.

Record world : Type := {
  proc : process;
  self : Backend
}.

Definition with_network (f : ZWaveNetwork -> ZWaveNetwork) (b : Backend) : Backend :=
  {| re_dimmer := re_dimmer b; re_sensor := re_sensor b;
     controller_name := controller_name b;
     network_ready_timeout := network_ready_timeout b;
     controller_operation_timeout := controller_operation_timeout b;
     network := f (network b);
     node_added := node_added b; node_removed := node_removed b;
     timestamps := timestamps b; connected := connected b |}.

Definition with_node_added (n : option ZWaveNode) (b : Backend) : Backend :=
  {| re_dimmer := re_dimmer b; re_sensor := re_sensor b;
     controller_name := controller_name b;
     network_ready_timeout := network_ready_timeout b;
     controller_operation_timeout := controller_operation_timeout b;
     network := network b;
     node_added := n; node_removed := node_removed b;
     timestamps := timestamps b; connected := connected b |}.

Definition with_node_removed (n : option ZWaveNode) (b : Backend) : Backend :=
  {| re_dimmer := re_dimmer b; re_sensor := re_sensor b;
     controller_name := controller_name b;
     network_ready_timeout := network_ready_timeout b;
     controller_operation_timeout := controller_operation_timeout b;
     network := network b;
     node_added := node_added b; node_removed := n;
     timestamps := timestamps b; connected := connected b |}.

Definition with_timestamps
    (f : gmap string (option Z) -> gmap string (option Z)) (b : Backend) : Backend :=
  {| re_dimmer := re_dimmer b; re_sensor := re_sensor b;
     controller_name := controller_name b;
     network_ready_timeout := network_ready_timeout b;
     controller_operation_timeout := controller_operation_timeout b;
     network := network b;
     node_added := node_added b; node_removed := node_removed b;
     timestamps := f (timestamps b); connected := connected b |}.

Definition with_connected (c : bool) (b : Backend) : Backend :=
  {| re_dimmer := re_dimmer b; re_sensor := re_sensor b;
     controller_name := controller_name b;
     network_ready_timeout := network_ready_timeout b;
     controller_operation_timeout := controller_operation_timeout b;
     network := network b;
     node_added := node_added b; node_removed := node_removed b;
     timestamps := timestamps b; connected := c |}.

Definition with_self (f : Backend -> Backend) (w : world) : world :=
  {| proc := proc w; self := f (self w) |}.

Definition with_proc (f : process -> process) (w : world) : world :=
  {| proc := f (proc w); self := self w |}.

(** ** The monad of methods *)

Definition M (A : Type) : Type := world -> outcome A * world.

Definition ret {A : Type} (a : A) : M A := fun w => (Return a, w).

Definition raise {A : Type} (e : exn) : M A := fun w => (Raise e, w).

Definition bind {A B : Type} (m : M A) (k : A -> M B) : M B :=
  fun w => match m w with
           | (Return a, w') => k a w'
           | (Raise e, w') => (Raise e, w')
           end.

Notation "x <- m ;; k" := (bind m (fun x => k))
  (at level 100, m at next level, right associativity).
Notation "m ;; k" := (bind m (fun _ => k))
  (at level 100, right associativity).

Definition lift {A : Type} (o : outcome A) : M A := fun w => (o, w).

Definition get_self : M Backend := fun w => (Return (self w), w).

Definition modify_self (f : Backend -> Backend) : M unit :=
  fun w => (Return tt, with_self f w).

Definition when (b : bool) (m : M unit) : M unit := if b then m else ret tt.

(** *** Effects *)

(** [self.logger.<level>(fmt.format(args))]. *)
Definition logger (l : log_level) (f : string) (a : list log_arg) : M unit :=
  fun w => (Return tt,
            with_proc (fun p =>
              {| started := started p;
                 log := log p ++ [{| level := l; fmt := f; args := a |}];
                 stdout := stdout p; clock := clock p;
                 clock_reads := clock_reads p; sleeps := sleeps p |}) w).

Definition print (s : string) : M unit :=
  fun w => (Return tt,
            with_proc (fun p =>
              {| started := started p; log := log p;
                 stdout := stdout p ++ [s]; clock := clock p;
                 clock_reads := clock_reads p; sleeps := sleeps p |}) w).

(** [time.time()]. *)
Definition time_time : M float :=
  fun w => (Return (clock (proc w) (clock_reads (proc w))),
            with_proc (fun p =>
              {| started := started p; log := log p; stdout := stdout p;
                 clock := clock p; clock_reads := S (clock_reads p);
                 sleeps := sleeps p |}) w).

(** [time.sleep(secs)]. *)
Definition time_sleep (secs : float) : M unit :=
  fun w => (Return tt,
            with_proc (fun p =>
              {| started := started p; log := log p; stdout := stdout p;
                 clock := clock p; clock_reads := clock_reads p;
                 sleeps := sleeps p ++ [secs] |}) w).

(** The global [started]. *)
Definition get_started : M bool := fun w => (Return (started (proc w)), w).

Definition set_started (b : bool) : M unit :=
  fun w => (Return tt,
            with_proc (fun p =>
              {| started := b; log := log p; stdout := stdout p;
                 clock := clock p; clock_reads := clock_reads p;
                 sleeps := sleeps p |}) w).

Definition with_commands (f : list driver_cmd -> list driver_cmd)
    (n : ZWaveNetwork) : ZWaveNetwork :=
  {| home_id := home_id n;
     state := state n; STATE_STARTED := STATE_STARTED n; nodes := nodes n;
     nodes_count := nodes_count n;
     ready_oracle := ready_oracle n; ready_reads := ready_reads n;
     add_node_reply := add_node_reply n;
     remove_node_reply := remove_node_reply n; stop_reply := stop_reply n;
     deliveries := deliveries n; delivered := delivered n;
     commands := f (commands n) |}.

Definition with_ready_reads (f : nat -> nat) (n : ZWaveNetwork) : ZWaveNetwork :=
  {| home_id := home_id n;
     state := state n; STATE_STARTED := STATE_STARTED n; nodes := nodes n;
     nodes_count := nodes_count n;
     ready_oracle := ready_oracle n; ready_reads := f (ready_reads n);
     add_node_reply := add_node_reply n;
     remove_node_reply := remove_node_reply n; stop_reply := stop_reply n;
     deliveries := deliveries n; delivered := delivered n;
     commands := commands n |}.

Definition with_delivered (f : nat -> nat) (n : ZWaveNetwork) : ZWaveNetwork :=
  {| home_id := home_id n;
     state := state n; STATE_STARTED := STATE_STARTED n; nodes := nodes n;
     nodes_count := nodes_count n;
     ready_oracle := ready_oracle n; ready_reads := ready_reads n;
     add_node_reply := add_node_reply n;
     remove_node_reply := remove_node_reply n; stop_reply := stop_reply n;
     deliveries := deliveries n; delivered := f (delivered n);
     commands := commands n |}.

(** A command submitted to the driver of [self.network]. *)
Definition driver (c : driver_cmd) : M unit :=
  modify_self (with_network (with_commands (fun cs => cs ++ [c]))).

(** [self.network.is_ready]: one read of the property. *)
Definition network_is_ready : M bool :=
  fun w =>
    let n := network (self w) in
    (Return (ready_oracle n (ready_reads n)),
     with_self (with_network (with_ready_reads S)) w).

(** ** Module-level functions *)

(** [_tstamp_label]: ["timestamp" + str(node.node_id)]. *)
Definition _tstamp_label (node : ZWaveNode) : string :=
  "timestamp" +:+ pretty (node_id node).

(** [json_prepare]: the dictionary [data.to_dict()] with every set turned
    into a tuple. *)
Definition json_prepare (data : ZWaveNode) : pyval :=
  PyDict (dict_of_items
    (map (fun i => (i.1, match i.2 with PySet l => PyTuple l | v => v end))
         (to_dict data))).

(** ** class Backend *)

(** The class attribute [_labels_xref]. *)
Definition _labels_xref : list (string * string) :=
  [ ("battery", "Battery Level");
    ("burglar", "Burglar");
    ("humidity", "Relative Humidity");
    ("level", "Level");
    ("luminance", "Luminance");
    ("motion", "Sensor");
    ("temperature", "Temperature");
    ("ultraviolet", "Ultraviolet") ].

(** [self._labels_xref[key]], for the keys the methods use. *)
Definition labels_xref (key : string) : string :=
  default "" (dict_get key _labels_xref).

(** [_is_network_started]: [self.network.state >= self.network.STATE_STARTED]. *)
Definition _is_network_started : M bool :=
  s <- get_self ;;
  ret (bool_decide (STATE_STARTED (network s) <= state (network s))).

(** [_lookup_node]: the first node of [self.network.nodes], in the
    dictionary's order, whose [node_id] is [nid]; [None] if there is none. *)
Definition _lookup_node (nid : Z) : M (option ZWaveNode) :=
  s <- get_self ;;
  logger DEBUG "nodes: {}" [ANodes (nodes (network s))] ;;
  ret (head (filter (fun node => node_id node = nid)
                    (dict_values (nodes (network s))))).

(** [_has_timestamp]: [_tstamp_label(node) in self.timestamps]. *)
Definition _has_timestamp (node : ZWaveNode) : M bool :=
  s <- get_self ;;
  logger DEBUG "timestamps: {}" [ATimestamps (timestamps s)] ;;
  ret (bool_decide (_tstamp_label node ∈ dom (timestamps s))).

(** [_get_node_timestamp]: the entry of the node, [None] on [KeyError].
    The entry itself may hold [None]. *)
Definition _get_node_timestamp (node : ZWaveNode) : M (option Z) :=
  s <- get_self ;;
  ret (default None (timestamps s !! _tstamp_label node)).

(** [_set_node_timestamp]: [self.timestamps[_tstamp_label(node)] = value]. *)
Definition _set_node_timestamp (node : ZWaveNode) (v : option Z) : M unit :=
  modify_self (with_timestamps (fun t => <[_tstamp_label node := v]> t)).

(** [dict.pop(key, None)]. *)
Definition timestamps_pop (key : string) : M (option Z) :=
  s <- get_self ;;
  modify_self (with_timestamps (fun t => delete key t)) ;;
  ret (default None (timestamps s !! key)).

(** [_del_node_timestamp]. *)
Definition _del_node_timestamp (node : ZWaveNode) : M (option Z) :=
  timestamps_pop (_tstamp_label node).

(** [_is_dimmer] and [_is_sensor]: the match object of [re.search], read
    as a truth value. *)
Definition _is_dimmer (node : ZWaveNode) : M bool :=
  s <- get_self ;; ret (re_dimmer s (type node)).

Definition _is_sensor (node : ZWaveNode) : M bool :=
  s <- get_self ;; ret (re_sensor s (type node)).

(** [a or b] on truth values: [b] is evaluated only if [a] is false. *)
Definition or_else (a : bool) (b : M bool) : M bool :=
  if a then ret true else b.

(** [_lookup_sensor_node]. *)
Definition _lookup_sensor_node (nid : Z) : M ZWaveNode :=
  found <- _lookup_node nid ;;
  match found with
  | None => raise (RuntimeError "No such node")
  | Some node =>
      ok <- or_else (is_ready node) (_has_timestamp node) ;;
      if negb ok then raise (RuntimeError "Not ready")
      else
        sensor <- _is_sensor node ;;
        if negb sensor then raise (RuntimeError "Not a sensor")
        else ret node
  end.

(** [_lookup_dimmer_node]. *)
Definition _lookup_dimmer_node (nid : Z) : M ZWaveNode :=
  found <- _lookup_node nid ;;
  match found with
  | None => raise (RuntimeError "No such node")
  | Some node =>
      ok <- or_else (is_ready node) (_has_timestamp node) ;;
      if negb ok then raise (RuntimeError "Not ready")
      else
        dimmer <- _is_dimmer node ;;
        if negb dimmer then raise (RuntimeError "Not a dimmer")
        else ret node
  end.

(** *** Notification handlers *)

(** [_network_reset]. *)
Definition _network_reset (net : ZWaveNetwork) : M unit :=
  logger INFO "Network hard reset: home ID {:08x}, {} nodes found"
         [AInt (home_id net); AInt (nodes_count net)].

(** [_network_started]. *)
Definition _network_started (net : ZWaveNetwork) : M unit :=
  logger INFO "Network started: home ID {:08x}, {} nodes found"
         [AInt (home_id net); AInt (nodes_count net)].

(** [_network_ready]: connects the three handlers below. *)
Definition _network_ready : M unit :=
  modify_self (with_connected true).

(** [_node_added]. *)
Definition _node_added (node : ZWaveNode) : M unit :=
  modify_self (with_node_added (Some node)) ;;
  _set_node_timestamp node None ;;
  logger INFO "node added: {}" [AInt (node_id node)].

(** [_node_removed]. *)
Definition _node_removed (node : ZWaveNode) : M unit :=
  modify_self (with_node_removed (Some node)) ;;
  timestamps_pop (_tstamp_label node) ;;
  _del_node_timestamp node ;;
  logger INFO "node removed: {}" [AInt (node_id node)].

(** [_value_update].  The argument of the debug message is
    [self.get_node_timestamp(node)]: no class of the module defines an
    attribute of that name (the accessor is [_get_node_timestamp]), so
    evaluating it raises [AttributeError], after the timestamp is set. *)
Definition _value_update (node : ZWaveNode) (v : ZWaveValue) : M unit :=
  now <- time_time ;;
  ts <- lift (py_int now) ;;
  _set_node_timestamp node (Some ts) ;;
  raise (AttributeError "get_node_timestamp").

(** The dispatcher delivering a notification to the handlers of this
    instance.  Handlers run on the driver's thread: what one raises does
    not reach the caller of a method, what it changed stays changed. *)
Definition dispatch (n : notification) : M unit :=
  fun w =>
    let run (h : M unit) := (Return tt, (h w).2) in
    match n with
    | SIGNAL_NETWORK_STARTED => run (_network_started (network (self w)))
    | SIGNAL_NETWORK_READY => run _network_ready
    | SIGNAL_NETWORK_RESETTED => run (_network_reset (network (self w)))
    | SIGNAL_NODE_ADDED node =>
        if connected (self w) then run (_node_added node) else (Return tt, w)
    | SIGNAL_NODE_REMOVED node =>
        if connected (self w) then run (_node_removed node) else (Return tt, w)
    | SIGNAL_VALUE node v =>
        if connected (self w) then run (_value_update node v) else (Return tt, w)
    end.

Fixpoint dispatch_all (ns : list notification) : M unit :=
  match ns with
  | [] => ret tt
  | n :: ns' => dispatch n ;; dispatch_all ns'
  end.

(** The driver's thread gets to run: the next batch of notifications is
    delivered. *)
Definition yield_to_driver : M unit :=
  s <- get_self ;;
  let n := network s in
  modify_self (with_network (with_delivered S)) ;;
  dispatch_all (deliveries n (delivered n)).

(** *** Network *)

(** The polling loop of [start], over the values [i] of
    [range(0, self.network_ready_timeout)]; the result is the local
    variable [timeout] when the loop is left. *)
Fixpoint start_poll (r : list Z) : M bool :=
  match r with
  | [] => ret true
  | i :: r' =>
      ready <- network_is_ready ;;
      if ready
      then logger DEBUG "Network ready after {}s" [AInt i] ;; ret false
      else time_sleep 1%float ;; start_poll r'
  end.

(** [start]. *)
Definition start : M (bool * string) :=
  already <- get_started ;;
  if already
  then
    let msg := "System already started. Skipping..." in
    logger WARNING msg [] ;;
    ret (false, msg)
  else
    driver NetStart ;;
    s <- get_self ;;
    logger INFO "Z-Wave Network Starting -- timeout in {}s. Please wait..."
           [AInt (network_ready_timeout s)] ;;
    timeout <- start_poll (seqZ 0 (network_ready_timeout s)) ;;
    ready <- network_is_ready ;;
    when (negb ready)
      (logger WARNING
         "Network is not ready after {}s. You should increase `network_ready_timeout`. Continuing anyway..."
         [AInt (network_ready_timeout s)]) ;;
    s' <- get_self ;;
    logger INFO "Network _{}_ ready. Nodes discovered: {}"
           [AStr (if timeout then "possibly" else "really");
            AInt (nodes_count (network s'))] ;;
    set_started true ;;
    ret (true, "OK").

(** [stop]. *)
Definition stop : M (bool * string) :=
  logger INFO "Z-Wave Network stopping..." [] ;;
  driver NetStop ;;
  s <- get_self ;;
  match stop_reply (network s) with
  | Some e => ret (false, e)
  | None => set_started false ;; ret (true, "OK")
  end.

(** *** Nodes *)

(** [sorted(items)] on the items of a dictionary with integer keys: the
    pairs are compared on the key, and as no two items of a dictionary
    share a key the comparison never reaches the nodes. *)
Fixpoint insert_item {V : Type} (x : Z * V) (l : list (Z * V)) : list (Z * V) :=
  match l with
  | [] => [x]
  | y :: l' => if bool_decide (y.1 < x.1) then y :: insert_item x l' else x :: l
  end.

(** The order of the items of a dictionary: by key. *)
Definition key_lt {V : Type} (x y : Z * V) : Prop := x.1 < y.1.

Definition sorted_items {V : Type} (items : list (Z * V)) : list (Z * V) :=
  foldr insert_item [] items.

(** [_my_nodes]: [OrderedDict(sorted(self.network.nodes.items()))]. *)
Definition _my_nodes : M (list (Z * ZWaveNode)) :=
  s <- get_self ;;
  ret (dict_of_items (sorted_items (nodes (network s)))).

(** [get_nodes_list]. *)
Definition get_nodes_list : M (list (Z * string)) :=
  logger DEBUG "looking for nodes..." [] ;;
  my_nodes <- _my_nodes ;;
  ret (foldl
         (fun result node =>
            if is_ready node
            then dict_set (node_id node) (type node) result
            else dict_set (node_id node) "[not ready]" result)
         [] (dict_values my_nodes)).

(** [==] on the values of [self.node_added]: [None] or a node, nodes
    compared by identity. *)
Definition py_eq_node (a b : option ZWaveNode) : bool :=
  match a, b with
  | None, None => true
  | Some x, Some y => bool_decide (obj x = obj y)
  | _, _ => false
  end.

(** The truth value of an attribute that is a bound method: such an
    object defines neither [__bool__] nor [__len__], it is true. *)
Definition truth_of_bound_method {A : Type} (method : A) : bool := true.

(** The wait loop of [add_node].  The driver's thread may run before each
    evaluation of the condition.  The loop has no bound of its own:
    [fuel] bounds the number of evaluations, and [None] says that it ran
    out before the loop was left. *)
Fixpoint add_node_wait (fuel : nat) (temp : option ZWaveNode) (start : float)
    : M (option unit) :=
  match fuel with
  | O => ret None
  | S fuel' =>
      yield_to_driver ;;
      s <- get_self ;;
      if py_eq_node (node_added s) temp
      then
        now <- time_time ;;
        if float_gt_Z (now - start)%float (controller_operation_timeout s)
        then
          print "Timed out" ;;
          driver CtlCancelCommand ;;
          raise (RuntimeError "Timeout")
        else add_node_wait fuel' temp start
      else ret (Some tt)
  end.

(** [json_prepare] on the value of [self.node_added]. *)
Definition json_prepare_attr (n : option ZWaveNode) : M pyval :=
  match n with
  | Some node => ret (json_prepare node)
  | None => raise (AttributeError "to_dict")
  end.

(** [add_node].  The guard reads the attribute [self._network_started],
    the handler of the network-started signal, not the state of the
    network.  A call whose [if] fails falls off the end of the function
    and returns [None]. *)
Definition add_node (fuel : nat) : M (option pyval) :=
  if negb (truth_of_bound_method _network_started)
  then raise (RuntimeError "Network is down")
  else
    s <- get_self ;;
    let temp := node_added s in
    driver CtlAddNode ;;
    if add_node_reply (network s)
    then
      start <- time_time ;;
      logger DEBUG "(add) add signal sent, entering while" [] ;;
      left <- add_node_wait fuel temp start ;;
      match left with
      | None => ret None
      | Some _ =>
          yield_to_driver ;;
          s' <- get_self ;;
          r <- json_prepare_attr (node_added s') ;;
          ret (Some r)
      end
    else ret (Some PyNone).

(** The wait loop of [remove_node]. *)
Fixpoint remove_node_wait (fuel : nat) (temp : option ZWaveNode) (start : float)
    : M (option unit) :=
  match fuel with
  | O => ret None
  | S fuel' =>
      yield_to_driver ;;
      s <- get_self ;;
      if py_eq_node (node_removed s) temp
      then
        now <- time_time ;;
        if float_gt_Z (now - start)%float (controller_operation_timeout s)
        then
          print "Timed out" ;;
          driver CtlCancelCommand ;;
          raise (RuntimeError "Timeout")
        else remove_node_wait fuel' temp start
      else ret (Some tt)
  end.

(** [remove_node]. *)
Definition remove_node (fuel : nat) : M (option pyval) :=
  if negb (truth_of_bound_method _network_started)
  then raise (RuntimeError "Network is down")
  else
    s <- get_self ;;
    let temp := node_removed s in
    driver CtlRemoveNode ;;
    if remove_node_reply (network s)
    then
      start <- time_time ;;
      logger DEBUG "(remove) add signal sent, entering while" [] ;;
      left <- remove_node_wait fuel temp start ;;
      match left with
      | None => ret None
      | Some _ =>
          yield_to_driver ;;
          s' <- get_self ;;
          r <- json_prepare_attr (node_removed s') ;;
          ret (Some r)
      end
    else ret (Some PyNone).

(** *** Values of a node *)

(** A filter argument of [ZWaveNode.get_values]: ['All'] or a value. *)
Inductive or_all (A : Type) : Type :=
| All
| Only (a : A).
Arguments All {A}.
Arguments Only {A} a.

Definition matches {A : Type} `{EqDecision A} (f : or_all A) (a : A) : bool :=
  match f with
  | All => true
  | Only x => bool_decide (a = x)
  end.

(** [node.get_values(class_id, genre, readonly, writeonly, label)], a query
    of the driver: the values of the node that pass every filter, in the
    order of the node's dictionary. *)
Definition get_values (node : ZWaveNode)
    (class_id : or_all Z) (genre_ : or_all string)
    (readonly writeonly : or_all bool) (label_ : or_all string)
    : list (Z * ZWaveValue) :=
  filter (fun kv =>
            matches class_id (command_class kv.2)
            && matches genre_ (genre kv.2)
            && matches readonly (is_read_only kv.2)
            && matches writeonly (is_write_only kv.2)
            && matches label_ (label kv.2) = true)
         (values node).

(** A list comprehension whose element expression may raise. *)
Fixpoint comprehension {A B : Type} (f : A -> outcome B) (l : list A)
    : outcome (list B) :=
  match l with
  | [] => Return []
  | x :: l' =>
      obind (f x) (fun y => obind (comprehension f l') (fun ys => Return (y :: ys)))
  end.

(** [l[0]]. *)
Definition first {A : Type} (l : list A) : outcome A :=
  match l with
  | x :: _ => Return x
  | [] => Raise (IndexError "list index out of range")
  end.

(** [v.data if v.units == 'C' else f_to_c(v.data)]. *)
Definition celsius (kv : Z * ZWaveValue) : outcome pyval :=
  if bool_decide (units kv.2 = "C") then Return (data kv.2) else f_to_c (data kv.2).

(** [v.data]. *)
Definition raw (kv : Z * ZWaveValue) : outcome pyval := Return (data kv.2).

Definition py_opt_int (o : option Z) : pyval :=
  match o with
  | Some z => PyInt z
  | None => PyNone
  end.

(** ** class Backend_with_sensors *)

(** The six getters of a sensor's reading have one body, up to: the key
    of the label, the read-only and write-only filters, the text of the
    two messages and the element expression of the comprehension.  The
    entry ["type"] of the result is the key. *)
Definition sensor_reading (key : string) (readonly writeonly : or_all bool)
    (missing : string) (dup : string) (elem : Z * ZWaveValue -> outcome pyval)
    (n : Z) : M (list (string * pyval)) :=
  node <- _lookup_sensor_node n ;;
  let vals := get_values node (Only 49) (Only "User") readonly writeonly
                         (Only (labels_xref key)) in
  match vals with
  | [] => raise (RuntimeError missing)
  | _ :: _ =>
      when (bool_decide (1 < length vals)%nat)
           (logger WARNING dup [AInt (node_id node)]) ;;
      value_ <- lift (obind (comprehension elem vals) first) ;;
      s <- get_self ;;
      updateTime <- _get_node_timestamp node ;;
      ret [ ("controller", PyStr (controller_name s));
            ("sensor", PyInt (node_id node));
            ("location", PyStr (location node));
            ("type", PyStr key);
            ("updateTime", py_opt_int updateTime);
            ("value", value_) ]
  end.

(** [get_sensor_temperature]. *)
Definition get_sensor_temperature : Z -> M (list (string * pyval)) :=
  sensor_reading "temperature" (Only true) (Only false)
    "Temperature: label not found. Is this a sensor?"
    "Node {}: get_values(Temperature) returned more than one value!?"
    celsius.

(** [get_sensor_humidity]. *)
Definition get_sensor_humidity : Z -> M (list (string * pyval)) :=
  sensor_reading "humidity" (Only true) (Only false)
    "Humidity: label not found. Is this a sensor?"
    "Node {}: get_values(Humidity) returned more than one value!?"
    raw.

(** [get_sensor_luminance]. *)
Definition get_sensor_luminance : Z -> M (list (string * pyval)) :=
  sensor_reading "luminance" (Only true) (Only false)
    "luminance: label not found. Is this a sensor?"
    "Node {}: get_values(Luminance) returned more than one value!?"
    celsius.

(** [get_sensor_ultraviolet]. *)
Definition get_sensor_ultraviolet : Z -> M (list (string * pyval)) :=
  sensor_reading "ultraviolet" (Only true) (Only false)
    "ultraviolet: label not found. Is this a sensor?"
    "Node {}: get_values(ultraviolet) returned more than one value!?"
    raw.

(** [get_sensor_motion]. *)
Definition get_sensor_motion : Z -> M (list (string * pyval)) :=
  sensor_reading "motion" (Only true) (Only false)
    "ultraviolet: label not found. Is this a sensor?"
    "Node {}: get_values(motion) returned more than one value!?"
    raw.

(** [get_sensor_battery]. *)
Definition get_sensor_battery : Z -> M (list (string * pyval)) :=
  sensor_reading "battery" All All
    "battery: label not found. Is this a sensor?"
    "Node {}: get_values(battery) returned more than one value!?"
    raw.

(** [d.get("value")]. *)
Definition get_value (d : list (string * pyval)) : pyval :=
  default PyNone (dict_get "value" d).

(** [get_sensor_readings]. *)
Definition get_sensor_readings (n : Z) : M (list (string * pyval)) :=
  _lookup_sensor_node n ;;
  t <- get_sensor_temperature n ;;
  let d := dict_set "value temperature" (get_value t) [] in
  h <- get_sensor_humidity n ;;
  let d := dict_set "value humidity" (get_value h) d in
  l <- get_sensor_luminance n ;;
  let d := dict_set "value luminance" (get_value l) d in
  u <- get_sensor_ultraviolet n ;;
  let d := dict_set "value ultraviolet" (get_value u) d in
  b <- get_sensor_battery n ;;
  let d := dict_set "value battery" (get_value b) d in
  ret d.

(** ** class Backend_with_dimmers *)

(** [get_dimmer_level]. *)
Definition get_dimmer_level (n : Z) : M (list (string * pyval)) :=
  found <- _lookup_node n ;;
  match found with
  | None => raise (RuntimeError "No such node")
  | Some node =>
      ok <- or_else (is_ready node) (_has_timestamp node) ;;
      if negb ok then raise (RuntimeError "Not ready")
      else
        dimmer <- _is_dimmer node ;;
        if negb dimmer then raise (RuntimeError "Not a dimmer")
        else
          let vals := get_values node All (Only "User") All All
                                 (Only (labels_xref "level")) in
          match vals with
          | [] => raise (RuntimeError "Temperature: label not found. Is this a sensor?")
          | _ :: _ =>
              when (bool_decide (1 < length vals)%nat)
                   (logger WARNING
                      "Node {}: get_values(Temperature) returned more than one value!?"
                      [AInt (node_id node)]) ;;
              value_ <- lift (obind (comprehension raw vals) first) ;;
              s <- get_self ;;
              ret [ ("controller", PyStr (controller_name s));
                    ("dimmer", PyInt (node_id node));
                    ("location", PyStr (location node));
                    ("type", PyStr "level");
                    ("value", value_) ]
          end
  end.

(** [set_dimmer_level]: the readiness test is [node.is_ready] alone. *)
Definition set_dimmer_level (n : Z) (v : pyval) : M pyval :=
  found <- _lookup_node n ;;
  match found with
  | None => raise (RuntimeError "No such node")
  | Some node =>
      if negb (is_ready node) then raise (RuntimeError "Not ready")
      else
        dimmer <- _is_dimmer node ;;
        if negb dimmer then raise (RuntimeError "Not a dimmer")
        else
          let vals := get_values node All (Only "User") All All
                                 (Only (labels_xref "level")) in
          match vals with
          | [] => raise (RuntimeError "Temperature: label not found. Is this a sensor?")
          | _ :: _ =>
              when (bool_decide (1 < length vals)%nat)
                   (logger WARNING
                      "Node {}: get_values(Temperature) returned more than one value!?"
                      [AInt (node_id node)]) ;;
              temp <- lift (obind (comprehension raw vals) first) ;;
              vid <- lift (obind (comprehension (fun kv => Return (value_id kv.2)) vals)
                                 first) ;;
              driver (NodeSetDimmer (node_id node) vid v) ;;
              ret temp
          end
  end.

(** ** More of class Backend *)

(** A [for] loop whose body calls methods: the body is run on each item
    in turn, threading the value it builds. *)
Fixpoint for_each {A B : Type} (body : A -> B -> M A) (l : list B) (a : A) : M A :=
  match l with
  | [] => ret a
  | x :: l' => a' <- body a x ;; for_each body l' a'
  end.

(** [get_sensors_list]. *)
Definition get_sensors_list : M (list (Z * string)) :=
  my_nodes <- _my_nodes ;;
  for_each
    (fun result node =>
       sensor <- _is_sensor node ;;
       if sensor
       then
         if is_ready node
         then ret (dict_set (node_id node) (product_name node) result)
         else ret (dict_set (node_id node) "[not ready]" result)
       else ret result)
    (dict_values my_nodes) [].

(** [get_dimmers_list]. *)
Definition get_dimmers_list : M (list (Z * string)) :=
  logger DEBUG "looking for nodes..." [] ;;
  my_nodes <- _my_nodes ;;
  for_each
    (fun result node =>
       dimmer <- _is_dimmer node ;;
       if dimmer
       then
         if is_ready node
         then ret (dict_set (node_id node) (product_name node) result)
         else ret (dict_set (node_id node) "[not ready]" result)
       else ret result)
    (dict_values my_nodes) [].

Definition with_nodes (f : list (Z * ZWaveNode) -> list (Z * ZWaveNode))
    (n : ZWaveNetwork) : ZWaveNetwork :=
  {| home_id := home_id n;
     state := state n; STATE_STARTED := STATE_STARTED n; nodes := f (nodes n);
     nodes_count := nodes_count n;
     ready_oracle := ready_oracle n; ready_reads := ready_reads n;
     add_node_reply := add_node_reply n;
     remove_node_reply := remove_node_reply n; stop_reply := stop_reply n;
     deliveries := deliveries n; delivered := delivered n;
     commands := commands n |}.

Definition with_location (v : string) (n : ZWaveNode) : ZWaveNode :=
  {| obj := obj n; node_id := node_id n; is_ready := is_ready n; type := type n;
     location := v; name := name n; product_name := product_name n;
     neighbors := neighbors n; values := values n; to_dict := to_dict n |}.

Definition with_name (v : string) (n : ZWaveNode) : ZWaveNode :=
  {| obj := obj n; node_id := node_id n; is_ready := is_ready n; type := type n;
     location := location n; name := v; product_name := product_name n;
     neighbors := neighbors n; values := values n; to_dict := to_dict n |}.

(** A change of the object [o], seen through a reference to a node. *)
Definition update_object (o : positive) (f : ZWaveNode -> ZWaveNode)
    (n : ZWaveNode) : ZWaveNode :=
  if decide (obj n = o) then f n else n.

(** An assignment to an attribute of the node object [o]: the object is
    the driver's, which keeps the name and the location it is given, and
    every reference to the object sees the change. *)
Definition assign (o : positive) (f : ZWaveNode -> ZWaveNode) : M unit :=
  modify_self (fun b =>
    with_node_added (update_object o f <$> node_added b)
      (with_node_removed (update_object o f <$> node_removed b)
         (with_network
            (with_nodes (map (fun kv => (kv.1, update_object o f kv.2)))) b))).

(** [set_node_location]. *)
Definition set_node_location (n : Z) (v : string) : M string :=
  found <- _lookup_node n ;;
  match found with
  | None => raise (RuntimeError "No node with this ID")
  | Some node =>
      let temp := location node in
      assign (obj node) (with_location v) ;;
      ret temp
  end.

(** [set_node_name]. *)
Definition set_node_name (n : Z) (v : string) : M string :=
  found <- _lookup_node n ;;
  match found with
  | None => raise (RuntimeError "No node with this ID")
  | Some node =>
      let temp := name node in
      assign (obj node) (with_name v) ;;
      ret temp
  end.

(** [get_node_location]. *)
Definition get_node_location (n : Z) : M string :=
  found <- _lookup_node n ;;
  match found with
  | None => raise (RuntimeError "No such node")
  | Some node => ret (location node)
  end.

(** [get_node_name]. *)
Definition get_node_name (n : Z) : M string :=
  found <- _lookup_node n ;;
  match found with
  | None => raise (RuntimeError "No such node")
  | Some node => ret (name node)
  end.

(** [get_neighbours_list]. *)
Definition get_neighbours_list (n : Z) : M (list Z) :=
  found <- _lookup_node n ;;
  match found with
  | None => raise (RuntimeError "No such node")
  | Some node => ret (neighbors node)
  end.

(** Two states of the program that differ in the log at most: what a
    method that only reads leaves behind. *)
Definition same_but_log (w w' : world) : Prop :=
  self w' = self w /\
  started (proc w') = started (proc w) /\
  stdout (proc w') = stdout (proc w) /\
  clock (proc w') = clock (proc w) /\
  clock_reads (proc w') = clock_reads (proc w) /\
  sleeps (proc w') = sleeps (proc w).

(** A method that only reads: whatever the state it is called in, and
    whether it returns or raises, it leaves all but the log as it was. *)
Definition quiet {A : Type} (m : M A) : Prop :=
  forall w, same_but_log w (m w).2.

(** ** Scenarios

    Concrete objects, used to run the methods. *)

Definition a_value (vid : Z) (l u : string) (d : pyval) (cc : Z) (ro : bool)
    : ZWaveValue :=
  {| value_id := vid; label := l; units := u; data := d; command_class := cc;
     genre := "User"; is_read_only := ro; is_write_only := false |}.

Definition a_node (id : Z) (ready : bool) (ty : string)
    (vals : list (Z * ZWaveValue)) : ZWaveNode :=
  {| obj := Z.to_pos id; node_id := id; is_ready := ready; type := ty;
     location := "Lab"; name := ""; product_name := ty;
     neighbors := [1]; values := vals;
     to_dict := [("node_id", PyInt id); ("neighbors", PySet [PyInt 1])] |}.

(** A network in state [st] (0 is stopped, 5 started, 10 ready), never
    ready within the first [late] reads of [is_ready], whose controller
    answers [reply] to inclusion and exclusion commands, and whose thread
    delivers the notifications [notes] at its first chance, if any. *)
Definition a_network (st : Z) (ns : list (Z * ZWaveNode)) (late : nat)
    (reply : bool) (notes : list notification) : ZWaveNetwork :=
  {| home_id := 3735928559; state := st; STATE_STARTED := 5; nodes := ns;
     nodes_count := Z.of_nat (length ns);
     ready_oracle := fun k => bool_decide (late <= k)%nat; ready_reads := 0;
     add_node_reply := reply; remove_node_reply := reply; stop_reply := None;
     deliveries := fun k => match k with O => notes | S _ => [] end;
     delivered := 0; commands := [] |}.

Definition a_backend (net : ZWaveNetwork) (ts : gmap string (option Z)) : Backend :=
  {| re_dimmer := fun ty => bool_decide (ty = "Light Dimmer Switch");
     re_sensor := fun ty => bool_decide (ty = "Home Security Sensor");
     controller_name := "Pi"; network_ready_timeout := 3;
     controller_operation_timeout := 20;
     network := net; node_added := None; node_removed := None;
     timestamps := ts; connected := true |}.

(** A process whose clock starts at [t0] and advances by half a second
    at each read. *)
Definition a_process (st : bool) (t0 : float) : process :=
  {| started := st; log := []; stdout := [];
     clock := fun k => (t0 + 0.5 * PrimFloat.of_uint63 (Uint63.of_Z (Z.of_nat k)))%float;
     clock_reads := 0; sleeps := [] |}.

Definition controller : ZWaveNode := a_node 1 true "Static PC Controller" [].

Definition sensor2 : ZWaveNode :=
  a_node 2 true "Home Security Sensor"
    [ (11, a_value 11 "Temperature" "F" (PyFloat 50) 49 true);
      (12, a_value 12 "Luminance" "lux" (PyFloat 212) 49 true);
      (13, a_value 13 "Relative Humidity" "%" (PyFloat 40) 49 true) ].

(** A dimmer that is not flagged ready. *)
Definition dimmer3 : ZWaveNode :=
  a_node 3 false "Light Dimmer Switch"
    [ (21, a_value 21 "Level" "" (PyInt 42) 38 false) ].

Definition node5 : ZWaveNode := a_node 5 false "Home Security Sensor" [].

(** A network that is stopped and whose controller rejects commands. *)
Definition down_world : world :=
  {| proc := a_process false 1700000000;
     self := a_backend (a_network 0 [(1, controller)] 10 false []) ∅ |}.

(** A started and ready network whose controller rejects commands. *)
Definition rejecting_world : world :=
  {| proc := a_process true 1700000000;
     self := a_backend (a_network 10 [(1, controller)] 0 false []) ∅ |}.

(** A stopped network whose controller accepts the inclusion command,
    and where node 5 is added right away. *)
Definition down_accepting_world : world :=
  {| proc := a_process false 1700000000;
     self := a_backend (a_network 0 [(1, controller)] 10 true
                                  [SIGNAL_NODE_ADDED node5]) ∅ |}.

(** A network that is not started and does not get ready within three
    polls. *)
Definition slow_world : world :=
  {| proc := a_process false 1700000000;
     self := a_backend (a_network 0 [(1, controller)] 10 true []) ∅ |}.

(** Nodes registered by the driver in the order 3, 1, 2. *)
Definition unordered_world : world :=
  {| proc := a_process true 1700000000;
     self := a_backend
               (a_network 10 [(3, dimmer3); (1, controller); (2, sensor2)] 0 true [])
               ∅ |}.

(** The dimmer 3 is not flagged ready and has a timestamp. *)
Definition history_world : world :=
  {| proc := a_process true 1700000000;
     self := a_backend
               (a_network 10 [(1, controller); (2, sensor2); (3, dimmer3)] 0 true [])
               {["timestamp3" := Some 1699999999]} |}.

(** A network that is ready at the third read of [is_ready]. *)
Definition prompt_world : world :=
  {| proc := a_process false 1700000000;
     self := a_backend (a_network 0 [(1, controller)] 2 true []) ∅ |}.


(** A started network whose driver fails to stop. *)
Definition stuck_world : world :=
  {| proc := a_process true 1700000000;
     self := a_backend
               {| home_id := 3735928559; state := 10; STATE_STARTED := 5;
                  nodes := [(1, controller)]; nodes_count := 1;
                  ready_oracle := fun _ => true; ready_reads := 0;
                  add_node_reply := true; remove_node_reply := true;
                  stop_reply := Some "driver is busy";
                  deliveries := fun _ => []; delivered := 0; commands := [] |}
               ∅ |}.


(** A dimmer that is flagged ready. *)
Definition dimmer4 : ZWaveNode :=
  a_node 4 true "Light Dimmer Switch"
    [ (31, a_value 31 "Level" "" (PyInt 99) 38 false) ].

(** A network with a sensor and two dimmers, registered in disorder. *)
Definition mixed_world : world :=
  {| proc := a_process true 1700000000;
     self := a_backend
               (a_network 10 [(4, dimmer4); (2, sensor2); (1, controller); (3, dimmer3)]
                          0 true [])
               {["timestamp2" := Some 1699999990]} |}.

(** A sensor that has every reading, on its own in a network. *)
Definition sensor6 : ZWaveNode :=
  a_node 6 true "Home Security Sensor"
    [ (61, a_value 61 "Temperature" "C" (PyFloat 21.5) 49 true);
      (62, a_value 62 "Relative Humidity" "%" (PyFloat 40) 49 true);
      (63, a_value 63 "Luminance" "C" (PyFloat 300) 49 true);
      (64, a_value 64 "Ultraviolet" "" (PyFloat 0) 49 true);
      (65, a_value 65 "Battery Level" "%" (PyInt 87) 49 true) ].

Definition full_world : world :=
  {| proc := a_process true 1700000000;
     self := a_backend (a_network 10 [(1, controller); (6, sensor6)] 0 true []) ∅ |}.

(** A sensor whose luminance is an integer number of lux, and one whose
    luminance is a boolean. *)
Definition sensor7 : ZWaveNode :=
  a_node 7 true "Home Security Sensor"
    [ (71, a_value 71 "Luminance" "lux" (PyInt 100) 49 true) ].

Definition sensor8 : ZWaveNode :=
  a_node 8 true "Home Security Sensor"
    [ (81, a_value 81 "Luminance" "lux" (PyBool true) 49 true) ].

Definition lux_world : world :=
  {| proc := a_process true 1700000000;
     self := a_backend
               (a_network 10 [(1, controller); (7, sensor7); (8, sensor8)] 0 true [])
               ∅ |}.

(** ** Tactics *)

(** One step of a method: the first [bind] of the goal is run, when what
    it binds is an effect of the model. *)
Ltac step :=
  unfold bind at 1;
  cbn [get_started get_self modify_self driver logger time_time time_sleep
       network_is_ready].

(** * Properties *)

(** ** The monad *)

Lemma bind_return {A B : Type} (m : M A) (k : A -> M B) (w w' : world) (a : A) :
  m w = (Return a, w') -> bind m k w = k a w'.
Proof. intros H. unfold bind. by rewrite H. Qed.

Lemma bind_raise {A B : Type} (m : M A) (k : A -> M B) (w w' : world) (e : exn) :
  m w = (Raise e, w') -> bind m k w = (Raise e, w').
Proof. intros H. unfold bind. by rewrite H. Qed.

(** A returned result of a [bind] comes from a returned result of its
    first part. *)
Lemma bind_inv {A B : Type} (m : M A) (k : A -> M B) (w w' : world) (b : B) :
  bind m k w = (Return b, w') ->
  exists a w1, m w = (Return a, w1) /\ k a w1 = (Return b, w').
Proof.
  unfold bind. destruct (m w) as [[a|e] w1]; intros H.
  - by exists a, w1.
  - discriminate.
Qed.

(** ** Timestamps *)

Lemma _set_node_timestamp_spec (node : ZWaveNode) (v : option Z) (w : world) :
  _set_node_timestamp node v w
  = (Return tt, with_self (with_timestamps (insert (_tstamp_label node) v)) w).
Proof. reflexivity. Qed.

Lemma _has_timestamp_result (node : ZWaveNode) (w : world) :
  (_has_timestamp node w).1
  = Return (bool_decide (_tstamp_label node ∈ dom (timestamps (self w)))).
Proof. reflexivity. Qed.

(** After [_node_added] the node has an entry, and the entry holds [None]. *)
Lemma _node_added_timestamps (node : ZWaveNode) (w : world) :
  timestamps (self (_node_added node w).2)
  = <[_tstamp_label node := None]> (timestamps (self w)).
Proof. reflexivity. Qed.

(** C4: right after a node-added notification, and before any value
    update, [_has_timestamp] already answers [True] for the node, although
    the entry it finds holds [None]: the handler stores [None] under the
    node's label and the predicate tests the presence of the key. *)
Theorem has_timestamp_after_node_added (node : ZWaveNode) (w : world) :
  (_has_timestamp node (_node_added node w).2).1 = Return true /\
  (_get_node_timestamp node (_node_added node w).2).1 = Return None.
Proof.
  split.
  - rewrite _has_timestamp_result, _node_added_timestamps.
    f_equal. apply bool_decide_eq_true. rewrite dom_insert. set_solver.
  - unfold _get_node_timestamp, bind, get_self. cbn [fst snd].
    rewrite _node_added_timestamps, lookup_insert_eq. reflexivity.
Qed.

(** What [_value_update] does to the timestamps when the clock gives a
    finite time. *)
Lemma _value_update_timestamps (node : ZWaveNode) (v : ZWaveValue) (w : world) (ts : Z) :
  py_int (clock (proc w) (clock_reads (proc w))) = Return ts ->
  timestamps (self (_value_update node v w).2)
  = <[_tstamp_label node := Some ts]> (timestamps (self w)).
Proof.
  intros H. unfold _value_update, bind, time_time, lift. cbn [fst snd proc with_proc].
  rewrite H. reflexivity.
Qed.

(** C2, as the code has it: a value update for a node without an entry
    in [self.timestamps] creates the entry, holding the time of the
    update, so that the dictionary grows by one; the driver's view of the
    network is left alone. *)
Theorem value_update_creates_entry
    (node : ZWaveNode) (v : ZWaveValue) (w : world) (ts : Z) :
  _tstamp_label node ∉ dom (timestamps (self w)) ->
  py_int (clock (proc w) (clock_reads (proc w))) = Return ts ->
  timestamps (self (_value_update node v w).2) !! _tstamp_label node = Some (Some ts) /\
  size (timestamps (self (_value_update node v w).2)) = S (size (timestamps (self w))) /\
  network (self (_value_update node v w).2) = network (self w).
Proof.
  intros Hnew Hts. rewrite (_value_update_timestamps _ _ _ _ Hts).
  split; [apply lookup_insert_eq|]. split.
  - apply map_size_insert_None. by apply not_elem_of_dom.
  - unfold _value_update, bind, time_time, lift. cbn [fst snd proc with_proc].
    rewrite Hts. reflexivity.
Qed.

Lemma value_update_creates_entry_witness :
  ("timestamp5" ∉ dom (timestamps (self down_world))) /\
  py_int (clock (proc down_world) (clock_reads (proc down_world)))
    = Return 1700000000 /\
  timestamps (self (_value_update node5 (a_value 1 "Level" "" PyNone 38 false) down_world).2)
    !! "timestamp5" = Some (Some 1700000000) /\
  size (timestamps (self (_value_update node5 (a_value 1 "Level" "" PyNone 38 false)
                                        down_world).2)) = 1%nat.
Proof.
  assert (H1 : _tstamp_label node5 ∉ dom (timestamps (self down_world))).
  { vm_compute. set_solver. }
  assert (H2 : py_int (clock (proc down_world) (clock_reads (proc down_world)))
               = Return 1700000000).
  { vm_compute. reflexivity. }
  split; [exact H1|]. split; [exact H2|].
  destruct (value_update_creates_entry node5 (a_value 1 "Level" "" PyNone 38 false)
              down_world 1700000000 H1 H2) as (H3 & H4 & _).
  split; [exact H3 | exact H4].
Defined.

(** C2 fails as stated: node 5 has no timestamp entry and is not a node
    of the network, and the value update is not a no-op, it adds an
    entry. *)
Lemma value_update_unknown_is_not_a_noop :
  ("timestamp5" ∉ dom (timestamps (self down_world))) /\
  (_lookup_node 5 down_world).1 = Return None /\
  ~ (timestamps (self (_value_update node5 (a_value 1 "Level" "" PyNone 38 false)
                                     down_world).2)
       = timestamps (self down_world) /\
     size (timestamps (self (_value_update node5 (a_value 1 "Level" "" PyNone 38 false)
                                           down_world).2))
       = size (timestamps (self down_world))).
Proof.
  split; [|split].
  - vm_compute. set_solver.
  - vm_compute. reflexivity.
  - intros [_ H]. vm_compute in H. discriminate.
Qed.

(** ** Starting the network *)

(** Whatever the driver answers, the polling loop ends without raising,
    and it leaves alone the global flag and the commands sent so far. *)
Lemma start_poll_total (r : list Z) (w : world) :
  exists b w',
    start_poll r w = (Return b, w') /\
    started (proc w') = started (proc w) /\
    commands (network (self w')) = commands (network (self w)).
Proof.
  revert w. induction r as [|i r IH]; intros w.
  - exists true, w. done.
  - cbn [start_poll]. step.
    destruct (ready_oracle _ _).
    + eexists _, _. split; [reflexivity|]. done.
    + step.
      match goal with |- context [start_poll r ?w0] =>
        destruct (IH w0) as (b & w' & -> & Hs & Hc) end.
      exists b, w'. split; [reflexivity|]. split; [exact Hs | exact Hc].
Qed.

(** A poll that finds the network not ready at each of its reads runs
    through the whole range, sleeping one second after each read. *)
Lemma start_poll_never_ready (r : list Z) (w : world) :
  (forall i : nat, (i < length r)%nat ->
     ready_oracle (network (self w)) (ready_reads (network (self w)) + i) = false) ->
  exists w',
    start_poll r w = (Return true, w') /\
    sleeps (proc w') = sleeps (proc w) ++ replicate (length r) 1%float /\
    log (proc w') = log (proc w) /\
    ready_reads (network (self w')) = (ready_reads (network (self w)) + length r)%nat /\
    ready_oracle (network (self w')) = ready_oracle (network (self w)) /\
    nodes_count (network (self w')) = nodes_count (network (self w)).
Proof.
  revert w. induction r as [|i r IH]; intros w H.
  - exists w. cbn. rewrite app_nil_r, Nat.add_0_r. done.
  - cbn [start_poll]. step.
    pose proof (H 0%nat ltac:(cbn; lia)) as H0.
    rewrite Nat.add_0_r in H0. rewrite H0.
    step.
    match goal with |- context [start_poll r ?w0] =>
      destruct (IH w0) as (w' & -> & Hs & Hl & Hr & Ho & Hn) end.
    { intros k Hk. cbn. rewrite <- Nat.add_succ_r. apply H. cbn. lia. }
    exists w'. split; [reflexivity|].
    rewrite Hs, Hl, Hr, Ho, Hn. cbn.
    rewrite <- app_assoc. cbn. repeat split; try done.
Qed.

(** On a process whose flag is not set, [start] sends the start command,
    succeeds and sets the flag. *)
Lemma start_not_started (w : world) :
  started (proc w) = false ->
  exists w',
    start w = (Return (true, "OK"), w') /\
    started (proc w') = true /\
    commands (network (self w')) = commands (network (self w)) ++ [NetStart].
Proof.
  intros Hs. unfold start. step. rewrite Hs. do 3 step. unfold bind at 1.
  match goal with |- context [start_poll ?r ?w0] =>
    destruct (start_poll_total r w0) as (b & w1 & -> & _ & Hc) end.
  step.
  destruct (ready_oracle _ _); cbn; eexists; (split; [reflexivity|]);
    cbn; rewrite Hc; done.
Qed.

(** On a process whose flag is set, [start] only logs a warning and
    reports the refusal. *)
Lemma start_already_started (w : world) :
  started (proc w) = true ->
  start w = (Return (false, "System already started. Skipping..."),
             (logger WARNING "System already started. Skipping..." [] w).2).
Proof.
  intros Hs. unfold start. step. by rewrite Hs.
Qed.

(** A successful [start] leaves the flag set. *)
Lemma start_success_sets_flag (w w1 : world) :
  start w = (Return (true, "OK"), w1) -> started (proc w1) = true.
Proof.
  intros H. destruct (started (proc w)) eqn:Hs.
  - rewrite (start_already_started w Hs) in H. discriminate.
  - destruct (start_not_started w Hs) as (w' & H' & Hf & _).
    rewrite H in H'. by injection H' as ->.
Qed.

(** C3: once [start] has succeeded, a second call returns a [False]
    status with its reason, sends nothing to the driver and leaves the
    instance, its network and the flag as they were: its only effect is a
    warning in the log. *)
Theorem start_twice (w w1 : world) :
  start w = (Return (true, "OK"), w1) ->
  exists w2,
    start w1 = (Return (false, "System already started. Skipping..."), w2) /\
    self w2 = self w1 /\
    commands (network (self w2)) = commands (network (self w1)) /\
    started (proc w2) = started (proc w1).
Proof.
  intros H. apply start_success_sets_flag in H.
  eexists. split; [apply (start_already_started _ H)|]. done.
Qed.

Lemma start_twice_witness :
  start slow_world = (Return (true, "OK"), (start slow_world).2) /\
  exists w2,
    start (start slow_world).2
      = (Return (false, "System already started. Skipping..."), w2) /\
    self w2 = self (start slow_world).2 /\
    commands (network (self w2)) = commands (network (self (start slow_world).2)) /\
    started (proc w2) = started (proc (start slow_world).2).
Proof.
  split.
  - vm_compute. reflexivity.
  - apply (start_twice slow_world). vm_compute. reflexivity.
Defined.

(** C5: when the network is not ready at any of the
    [network_ready_timeout] polls, [start] still returns [(True, 'OK')]
    and sets the flag.  It has slept one second after each poll, and the
    log tells the rest: the network is reported as "possibly" ready, after
    a warning if it is still not ready when read once more after the
    loop. *)
Theorem start_timeout_is_success (w : world) :
  started (proc w) = false ->
  (forall i : nat, (i < Z.to_nat (network_ready_timeout (self w)))%nat ->
     ready_oracle (network (self w)) (ready_reads (network (self w)) + i) = false) ->
  exists w',
    start w = (Return (true, "OK"), w') /\
    started (proc w') = true /\
    sleeps (proc w')
      = sleeps (proc w) ++ replicate (Z.to_nat (network_ready_timeout (self w))) 1%float /\
    log (proc w')
      = log (proc w)
        ++ [ {| level := INFO;
                fmt := "Z-Wave Network Starting -- timeout in {}s. Please wait...";
                args := [AInt (network_ready_timeout (self w))] |} ]
        ++ (if ready_oracle (network (self w))
                 (ready_reads (network (self w))
                  + Z.to_nat (network_ready_timeout (self w)))
            then []
            else [ {| level := WARNING;
                      fmt := "Network is not ready after {}s. You should increase `network_ready_timeout`. Continuing anyway...";
                      args := [AInt (network_ready_timeout (self w))] |} ])
        ++ [ {| level := INFO;
                fmt := "Network _{}_ ready. Nodes discovered: {}";
                args := [AStr "possibly"; AInt (nodes_count (network (self w)))] |} ].
Proof.
  intros Hs Hn. unfold start. step. rewrite Hs. do 3 step. unfold bind at 1.
  match goal with |- context [start_poll ?r ?w0] =>
    destruct (start_poll_never_ready r w0) as (w1 & -> & Hsl & Hl & Hr & Ho & Hc) end.
  { rewrite length_seqZ. exact Hn. }
  rewrite length_seqZ in Hsl, Hr. cbn in Hsl, Hl, Hr, Ho, Hc.
  step. rewrite Ho, Hr.
  destruct (ready_oracle _ _); cbn; eexists; (split; [reflexivity|]);
    cbn; rewrite Hsl, Hl, Hc, <- ?app_assoc; done.
Qed.

Lemma start_timeout_is_success_witness :
  started (proc slow_world) = false /\
  (forall i : nat, (i < 3)%nat ->
     ready_oracle (network (self slow_world)) (0 + i) = false) /\
  (start slow_world).1 = Return (true, "OK") /\
  sleeps (proc (start slow_world).2) = [1%float; 1%float; 1%float].
Proof.
  assert (Hn : forall i : nat, (i < 3)%nat ->
            ready_oracle (network (self slow_world)) (0 + i) = false).
  { intros i Hi. cbn. apply bool_decide_eq_false. lia. }
  split; [reflexivity|]. split; [exact Hn|].
  destruct (start_timeout_is_success slow_world eq_refl Hn) as (w' & E & _ & S & _).
  rewrite E. cbn [fst snd]. rewrite S. split; reflexivity.
Defined.

(** The flag is the module's: a successful [start] on one instance makes
    [start] refuse on any other instance of the process. *)
Lemma start_flag_is_shared (p : process) (a b : Backend) (w1 : world) :
  start {| proc := p; self := a |} = (Return (true, "OK"), w1) ->
  start {| proc := proc w1; self := b |}
  = (Return (false, "System already started. Skipping..."),
     (logger WARNING "System already started. Skipping..." []
             {| proc := proc w1; self := b |}).2).
Proof.
  intros H. apply start_success_sets_flag in H.
  by apply start_already_started.
Qed.

(** C9: two instances in one process, neither started.  After [start]
    has succeeded on the first, [start] on the second, which was never
    started, is refused as already started, and its driver receives no
    start command: the flag [started] is a global of the module. *)
Theorem start_on_second_instance_refused :
  (start slow_world).1 = Return (true, "OK") /\
  started (proc down_world) = false /\
  (start {| proc := proc (start slow_world).2; self := self down_world |}).1
    = Return (false, "System already started. Skipping...") /\
  commands (network (self
    (start {| proc := proc (start slow_world).2; self := self down_world |}).2)) = [].
Proof. vm_compute. done. Qed.

(** ** Adding a node *)

(** The handlers never send a command to the driver. *)
Lemma dispatch_commands (n : notification) (w : world) :
  exists w',
    dispatch n w = (Return tt, w') /\
    commands (network (self w')) = commands (network (self w)).
Proof.
  destruct n as [| | |node|node|node v]; cbn [dispatch];
    try destruct (connected (self w)); eexists; (split; [reflexivity|]);
    try reflexivity.
  unfold _value_update, bind, time_time, lift.
  destruct (py_int _); reflexivity.
Qed.

Lemma dispatch_all_commands (ns : list notification) (w : world) :
  exists w',
    dispatch_all ns w = (Return tt, w') /\
    commands (network (self w')) = commands (network (self w)).
Proof.
  revert w. induction ns as [|n ns IH]; intros w.
  - by exists w.
  - cbn [dispatch_all]. destruct (dispatch_commands n w) as (w1 & H1 & C1).
    rewrite (bind_return _ _ _ _ _ H1).
    destruct (IH w1) as (w2 & H2 & C2). exists w2. split; [exact H2|].
    by rewrite C2.
Qed.

Lemma yield_to_driver_commands (w : world) :
  exists w',
    yield_to_driver w = (Return tt, w') /\
    commands (network (self w')) = commands (network (self w)).
Proof.
  unfold yield_to_driver. step.
  step.
  match goal with |- context [dispatch_all ?ns ?w0] =>
    destruct (dispatch_all_commands ns w0) as (w' & H & C) end.
  exists w'. split; [exact H|]. by rewrite C.
Qed.

(** The wait loop is left in one of three ways: the fuel ran out, the
    node changed, or the time was up; in the last case only it has sent a
    command, the cancellation. *)
Lemma add_node_wait_spec (fuel : nat) (temp : option ZWaveNode) (start : float)
    (w : world) :
  exists o w',
    add_node_wait fuel temp start w = (o, w') /\
    ((exists r, o = Return r /\
        commands (network (self w')) = commands (network (self w))) \/
     (o = Raise (RuntimeError "Timeout") /\
        commands (network (self w'))
        = commands (network (self w)) ++ [CtlCancelCommand])).
Proof.
  revert w. induction fuel as [|fuel IH]; intros w.
  - eexists _, _. split; [reflexivity|]. left. by eexists.
  - cbn [add_node_wait].
    destruct (yield_to_driver_commands w) as (w1 & H1 & C1).
    rewrite (bind_return _ _ _ _ _ H1).
    step.
    destruct (py_eq_node _ _).
    + step.
      destruct (float_gt_Z _ _).
      * eexists _, _. split; [reflexivity|]. right. split; [reflexivity|].
        cbn. by rewrite C1.
      * match goal with |- context [add_node_wait fuel temp start ?w0] =>
          destruct (IH w0) as (o & w' & -> & Ho) end.
        exists o, w'. split; [reflexivity|]. cbn in Ho. by rewrite C1 in Ho.
    + eexists _, _. split; [reflexivity|]. left. eexists. by rewrite C1.
Qed.

Lemma add_node_spec (fuel : nat) (w : world) :
  exists o w' cs,
    add_node fuel w = (o, w') /\
    commands (network (self w')) = commands (network (self w)) ++ CtlAddNode :: cs /\
    o <> Raise (RuntimeError "Network is down").
Proof.
  unfold add_node. cbn [truth_of_bound_method negb].
  do 2 step.
  destruct (add_node_reply _).
  - step.
    step.
    unfold bind at 1.
    match goal with |- context [add_node_wait fuel ?t ?s ?w0] =>
      destruct (add_node_wait_spec fuel t s w0) as (o & w1 & -> & Ho) end.
    cbn in Ho. destruct Ho as [(r & -> & C)|[-> C]].
    + destruct r as [[]|].
      * destruct (yield_to_driver_commands w1) as (w2 & H2 & C2).
        rewrite (bind_return _ _ _ _ _ H2).
        step.
        destruct (node_added (self w2)); cbn;
          eexists _, _, []; (split; [reflexivity|]); rewrite C2, C; done.
      * eexists _, _, []. split; [reflexivity|]. rewrite C. done.
    + eexists _, _, _. split; [reflexivity|]. rewrite C, <- app_assoc. done.
  - eexists _, _, []. split; [reflexivity|]. done.
Qed.

(** [add_node] never looks at the state of the network: whatever that
    state is, the inclusion command is the first thing the driver
    receives, and the call never fails with "Network is down". *)
Lemma add_node_ignores_network_state (fuel : nat) (w : world) :
  (exists cs, commands (network (self (add_node fuel w).2))
              = commands (network (self w)) ++ CtlAddNode :: cs) /\
  (add_node fuel w).1 <> Raise (RuntimeError "Network is down").
Proof.
  destruct (add_node_spec fuel w) as (o & w' & cs & -> & C & Ho).
  split; [by exists cs|exact Ho].
Qed.

(** When the controller rejects the inclusion command, [add_node] returns
    [None] at once: the wait loop is not entered, nothing is raised. *)
Lemma add_node_rejected (fuel : nat) (w : world) :
  add_node_reply (network (self w)) = false ->
  add_node fuel w = (Return (Some PyNone), (driver CtlAddNode w).2).
Proof.
  intros H. unfold add_node. cbn [truth_of_bound_method negb].
  step.
  step. by rewrite H.
Qed.

(** C1: on a network that is stopped ([state] below [STATE_STARTED], the
    flag [started] not set), [add_node] does not fail with "Network is
    down": it sends the inclusion command to the controller.  Here the
    controller rejects the command and the call returns [None]; when the
    controller accepts it and a node joins, the call returns that node. *)
Theorem add_node_on_stopped_network :
  (_is_network_started down_world).1 = Return false /\
  started (proc down_world) = false /\
  (forall fuel : nat,
     add_node fuel down_world
     = (Return (Some PyNone), (driver CtlAddNode down_world).2)) /\
  commands (network (self (driver CtlAddNode down_world).2)) = [CtlAddNode] /\
  (_is_network_started down_accepting_world).1 = Return false /\
  (add_node 1 down_accepting_world).1
  = Return (Some (PyDict [("node_id", PyInt 5); ("neighbors", PyTuple [PyInt 1])])).
Proof.
  split; [vm_compute; reflexivity|]. split; [reflexivity|].
  split; [intros fuel; by apply add_node_rejected|].
  split; [reflexivity|]. split; vm_compute; reflexivity.
Qed.

(** C6: on a started and ready network whose controller rejects the
    inclusion command, [add_node] does not report an error: it returns
    [None], having sent the command and without entering the wait loop
    (no read of the clock, no notification taken). *)
Theorem add_node_rejected_returns_none :
  (_is_network_started rejecting_world).1 = Return true /\
  add_node_reply (network (self rejecting_world)) = false /\
  (forall fuel : nat,
     add_node fuel rejecting_world
     = (Return (Some PyNone), (driver CtlAddNode rejecting_world).2)) /\
  clock_reads (proc (driver CtlAddNode rejecting_world).2) = 0%nat /\
  delivered (network (self (driver CtlAddNode rejecting_world).2)) = 0%nat.
Proof.
  split; [vm_compute; reflexivity|]. split; [reflexivity|].
  split; [intros fuel; by apply add_node_rejected|].
  split; reflexivity.
Qed.

(** ** Dictionaries and sorting *)

Section DictFacts.
Context {K V : Type} `{EqDecision K}.
Implicit Types (d : list (K * V)).

(** A key that is not in the dictionary is appended. *)
Lemma dict_set_fresh k v d : k ∉ dict_keys d -> dict_set k v d = d ++ [(k, v)].
Proof.
  unfold dict_keys. induction d as [|[k' v'] d IH]; intros Hk; [done|].
  cbn in *. apply not_elem_of_cons in Hk as [Hne Hk].
  destruct (decide (k = k')); [done|]. by rewrite IH.
Qed.

(** Inserting items with pairwise distinct new keys appends them. *)
Lemma foldl_dict_set_fresh {A : Type} (key : A -> K) (val : A -> V)
    (l : list A) d :
  NoDup (dict_keys d ++ (key <$> l)) ->
  foldl (fun d a => dict_set (key a) (val a) d) d l
  = d ++ ((fun a => (key a, val a)) <$> l).
Proof.
  revert d. induction l as [|a l IH]; intros d Hd; cbn.
  - by rewrite app_nil_r.
  - assert (key a ∉ dict_keys d) as Ha.
    { apply NoDup_app in Hd as (_ & Hd & _). intros Hin.
      apply (Hd _ Hin). left. }
    rewrite (dict_set_fresh _ _ _ Ha), IH, <- app_assoc; [done|].
    unfold dict_keys in *. rewrite fmap_app, <- app_assoc. exact Hd.
Qed.

(** Building a dictionary from the items of a dictionary gives them
    back in the same order. *)
Lemma dict_of_items_wf d : dict_wf d -> dict_of_items d = d.
Proof.
  intros Hd. unfold dict_of_items.
  rewrite (foldl_dict_set_fresh fst snd d []); [|exact Hd].
  cbn. rewrite <- (list_fmap_id d) at 2. apply list_fmap_ext.
  by intros _ [] _.
Qed.
End DictFacts.

Section Sorting.
Context {V : Type}.
Implicit Types (x y : Z * V) (l : list (Z * V)).

Lemma insert_item_perm x l : insert_item x l ≡ₚ x :: l.
Proof.
  induction l as [|y l IH]; cbn; [done|].
  case_bool_decide; [|done]. rewrite IH. apply perm_swap.
Qed.

Lemma sorted_items_perm l : sorted_items l ≡ₚ l.
Proof.
  induction l as [|x l IH]; cbn; [done|].
  fold (sorted_items l). by rewrite insert_item_perm, IH.
Qed.

Lemma insert_item_sorted x l :
  x.1 ∉ dict_keys l ->
  StronglySorted key_lt l -> StronglySorted key_lt (insert_item x l).
Proof.
  unfold dict_keys. induction l as [|y l IH]; cbn; intros Hx Hl.
  - by repeat constructor.
  - apply not_elem_of_cons in Hx as [Hne Hx].
    apply StronglySorted_inv in Hl as [Hl Hy].
    case_bool_decide as Hlt.
    + constructor; [by apply IH|].
      rewrite insert_item_perm. by constructor.
    + constructor; [by constructor|].
      assert (key_lt x y) as Hxy by (unfold key_lt; lia).
      constructor; [done|].
      eapply Forall_impl; [exact Hy|]. unfold key_lt in *. cbn. lia.
Qed.

(** [sorted] puts the items of a dictionary in ascending order of key. *)
Lemma sorted_items_sorted l :
  dict_wf l -> StronglySorted key_lt (sorted_items l).
Proof.
  unfold dict_wf, dict_keys. induction l as [|x l IH]; cbn; intros Hl.
  - constructor.
  - fold (sorted_items l). apply NoDup_cons in Hl as [Hx Hl].
    apply insert_item_sorted; [|by apply IH].
    unfold dict_keys. by rewrite sorted_items_perm.
Qed.

Lemma sorted_items_keys_sorted l :
  dict_wf l -> StronglySorted Z.lt (dict_keys (sorted_items l)).
Proof.
  intros Hl. apply sorted_items_sorted in Hl.
  unfold dict_keys. induction Hl as [|x l' _ IH Hx]; cbn; constructor; [done|].
  by apply Forall_fmap.
Qed.

Lemma sorted_items_wf l : dict_wf l -> dict_wf (sorted_items l).
Proof. unfold dict_wf, dict_keys. by rewrite sorted_items_perm. Qed.

(** The result of [sorted] does not depend on the order of the items. *)
Lemma sorted_items_order l1 l2 :
  dict_wf l1 -> l1 ≡ₚ l2 -> sorted_items l1 = sorted_items l2.
Proof.
  intros H1 E. assert (dict_wf l2) as H2.
  { unfold dict_wf, dict_keys. by rewrite <- E. }
  apply (StronglySorted_unique_strong key_lt).
  - unfold key_lt. intros; lia.
  - by apply sorted_items_sorted.
  - by apply sorted_items_sorted.
  - by rewrite !sorted_items_perm.
Qed.
End Sorting.

(** ** Listing the nodes *)

(** In the driver's dictionary a node is filed under its own id. *)
Lemma node_ids_are_keys (l : list (Z * ZWaveNode)) :
  (forall k node, (k, node) ∈ l -> node_id node = k) ->
  node_id <$> dict_values l = dict_keys l.
Proof.
  unfold dict_values, dict_keys. induction l as [|[k node] l IH]; intros H; [done|].
  cbn. rewrite (H k node) by left. f_equal. apply IH.
  intros k' node' Hin. apply H. by right.
Qed.

(** What [get_nodes_list] returns, in terms of the driver's dictionary:
    one entry per node, in ascending order of key. *)
Lemma get_nodes_list_result (w : world) :
  dict_wf (nodes (network (self w))) ->
  (forall k node, (k, node) ∈ nodes (network (self w)) -> node_id node = k) ->
  (get_nodes_list w).1
  = Return ((fun node => (node_id node,
                          if is_ready node then type node else "[not ready]"))
              <$> dict_values (sorted_items (nodes (network (self w))))).
Proof.
  intros Hwf Hid. unfold get_nodes_list, _my_nodes, bind, logger, get_self, ret.
  cbn [fst snd self with_proc].
  rewrite (dict_of_items_wf _ (sorted_items_wf _ Hwf)). f_equal.
  set (l := dict_values _).
  assert (NoDup (dict_keys (@nil (Z * string)) ++ (node_id <$> l))) as Hnd.
  { cbn. subst l. rewrite node_ids_are_keys.
    - apply (sorted_items_wf _ Hwf).
    - intros k node Hin. apply Hid. by rewrite <- (sorted_items_perm (nodes _)). }
  pose proof (foldl_dict_set_fresh node_id
                (fun node => if is_ready node then type node else "[not ready]")
                l [] Hnd) as E.
  cbn [app] in E. rewrite <- E. clear.
  generalize (@nil (Z * string)). induction l as [|node l IH]; intros acc; [done|].
  cbn. rewrite <- IH. by destruct (is_ready node).
Qed.

(** C8: the entries of [get_nodes_list] are in ascending order of node
    id, one per node of the network, whatever the order in which the
    driver registered the nodes.  The driver's dictionary is a dictionary
    (no key twice) and files each node under its id. *)
Theorem get_nodes_list_ascending (w : world) :
  dict_wf (nodes (network (self w))) ->
  (forall k node, (k, node) ∈ nodes (network (self w)) -> node_id node = k) ->
  exists l,
    (get_nodes_list w).1 = Return l /\
    StronglySorted Z.lt (dict_keys l) /\
    dict_keys l ≡ₚ node_id <$> dict_values (nodes (network (self w))).
Proof.
  intros Hwf Hid. eexists. split; [by apply get_nodes_list_result|].
  assert (dict_keys ((fun node => (node_id node,
                        if is_ready node then type node else "[not ready]"))
                     <$> dict_values (sorted_items (nodes (network (self w)))))
          = dict_keys (sorted_items (nodes (network (self w))))) as ->.
  { unfold dict_keys at 1. rewrite <- list_fmap_compose.
    rewrite <- (node_ids_are_keys (sorted_items _)); [done|].
    intros k node Hin. apply Hid. by rewrite <- (sorted_items_perm (nodes _)). }
  split; [by apply sorted_items_keys_sorted|].
  rewrite (node_ids_are_keys _ Hid). unfold dict_keys.
  by rewrite sorted_items_perm.
Qed.

Lemma get_nodes_list_ascending_witness :
  dict_wf (nodes (network (self unordered_world))) /\
  (forall k node,
     (k, node) ∈ nodes (network (self unordered_world)) -> node_id node = k) /\
  dict_keys (nodes (network (self unordered_world))) = [3; 1; 2] /\
  exists l,
    (get_nodes_list unordered_world).1 = Return l /\
    StronglySorted Z.lt (dict_keys l) /\
    dict_keys l ≡ₚ [3; 1; 2] /\
    dict_keys l = [1; 2; 3].
Proof.
  assert (Hwf : dict_wf (nodes (network (self unordered_world)))).
  { unfold dict_wf. cbn. apply (bool_decide_unpack _). reflexivity. }
  assert (Hid : forall k node,
             (k, node) ∈ nodes (network (self unordered_world)) -> node_id node = k).
  { cbn. intros k node Hin.
    repeat (apply elem_of_cons in Hin as [[= -> ->]|Hin]; [reflexivity|]).
    by apply elem_of_nil in Hin. }
  split; [exact Hwf|]. split; [exact Hid|]. split; [reflexivity|].
  destruct (get_nodes_list_ascending unordered_world Hwf Hid) as (l & Hl & Hs & Hp).
  exists l. split; [exact Hl|]. split; [exact Hs|]. split; [exact Hp|].
  vm_compute in Hl. injection Hl as <-. reflexivity.
Defined.

(** Two networks with the same nodes, registered in different orders,
    are listed alike. *)
Lemma get_nodes_list_arrival_order (w1 w2 : world) :
  dict_wf (nodes (network (self w1))) ->
  (forall k node, (k, node) ∈ nodes (network (self w1)) -> node_id node = k) ->
  nodes (network (self w1)) ≡ₚ nodes (network (self w2)) ->
  (get_nodes_list w1).1 = (get_nodes_list w2).1.
Proof.
  intros Hwf Hid E.
  assert (dict_wf (nodes (network (self w2)))) as Hwf2.
  { unfold dict_wf, dict_keys. by rewrite <- E. }
  assert (forall k node, (k, node) ∈ nodes (network (self w2)) -> node_id node = k)
    as Hid2.
  { intros k node Hin. apply Hid. by rewrite E. }
  rewrite (get_nodes_list_result w1 Hwf Hid), (get_nodes_list_result w2 Hwf2 Hid2).
  by rewrite (sorted_items_order _ _ Hwf E).
Qed.

(** ** Sensors and dimmers *)

(** The checks of [_lookup_sensor_node], in their order: the node exists,
    then it is ready or has a timestamp, then it is a sensor. *)
Lemma _lookup_sensor_node_order (nid : Z) (w : world) :
  (_lookup_sensor_node nid w).1
  = match (_lookup_node nid w).1 with
    | Return None => Raise (RuntimeError "No such node")
    | Return (Some node) =>
        if is_ready node
           || bool_decide (_tstamp_label node ∈ dom (timestamps (self w)))
        then if re_sensor (self w) (type node)
             then Return node
             else Raise (RuntimeError "Not a sensor")
        else Raise (RuntimeError "Not ready")
    | Raise e => Raise e
    end.
Proof.
  unfold _lookup_sensor_node, _lookup_node, _has_timestamp, _is_sensor, or_else,
    bind, get_self, logger, ret, raise.
  cbn [fst snd self with_proc].
  destruct (head _) as [node|]; [|done].
  destruct (is_ready node); cbn; [|case_bool_decide; cbn];
    try destruct (re_sensor _ _); reflexivity.
Qed.

(** The same checks in [_lookup_dimmer_node]. *)
Lemma _lookup_dimmer_node_order (nid : Z) (w : world) :
  (_lookup_dimmer_node nid w).1
  = match (_lookup_node nid w).1 with
    | Return None => Raise (RuntimeError "No such node")
    | Return (Some node) =>
        if is_ready node
           || bool_decide (_tstamp_label node ∈ dom (timestamps (self w)))
        then if re_dimmer (self w) (type node)
             then Return node
             else Raise (RuntimeError "Not a dimmer")
        else Raise (RuntimeError "Not ready")
    | Raise e => Raise e
    end.
Proof.
  unfold _lookup_dimmer_node, _lookup_node, _has_timestamp, _is_dimmer, or_else,
    bind, get_self, logger, ret, raise.
  cbn [fst snd self with_proc].
  destruct (head _) as [node|]; [|done].
  destruct (is_ready node); cbn; [|case_bool_decide; cbn];
    try destruct (re_dimmer _ _); reflexivity.
Qed.

(** [get_dimmer_level] refuses a node for the same reasons, in the same
    order. *)
Lemma get_dimmer_level_order (n : Z) (w : world) (e : exn) :
  (get_dimmer_level n w).1 = Raise e ->
  match (_lookup_node n w).1 with
  | Return None => e = RuntimeError "No such node"
  | Return (Some node) =>
      if is_ready node
         || bool_decide (_tstamp_label node ∈ dom (timestamps (self w)))
      then if re_dimmer (self w) (type node)
           then True
           else e = RuntimeError "Not a dimmer"
      else e = RuntimeError "Not ready"
  | Raise _ => True
  end.
Proof.
  unfold get_dimmer_level, _lookup_node, _has_timestamp, _is_dimmer, or_else,
    bind, get_self, logger, ret, raise.
  cbn [fst snd self with_proc].
  destruct (head _) as [node|]; [|by intros [= <-]].
  destruct (is_ready node); cbn; [|case_bool_decide; cbn];
    try destruct (re_dimmer _ _); try done; by intros [= <-].
Qed.

(** [set_dimmer_level] refuses every node that is not flagged ready,
    with or without a timestamp, and sends it nothing. *)
Lemma set_dimmer_level_not_ready (n : Z) (v : pyval) (w : world) (node : ZWaveNode) :
  (_lookup_node n w).1 = Return (Some node) ->
  is_ready node = false ->
  (set_dimmer_level n v w).1 = Raise (RuntimeError "Not ready") /\
  commands (network (self (set_dimmer_level n v w).2)) = commands (network (self w)).
Proof.
  unfold set_dimmer_level, _lookup_node, bind, get_self, logger, ret, raise.
  cbn [fst snd self with_proc].
  intros [= ->] ->. done.
Qed.

(** C7: the dimmer 3 exists, is not flagged ready, has a timestamp and
    is a dimmer.  [get_dimmer_level] accepts it, through the timestamp,
    and reads its level; [set_dimmer_level] refuses it with "Not ready"
    and sends nothing to the driver: its readiness test leaves the
    timestamp out. *)
Theorem set_dimmer_level_ignores_history :
  (_lookup_node 3 history_world).1 = Return (Some dimmer3) /\
  is_ready dimmer3 = false /\
  (_has_timestamp dimmer3 history_world).1 = Return true /\
  (_is_dimmer dimmer3 history_world).1 = Return true /\
  (_lookup_dimmer_node 3 history_world).1 = Return dimmer3 /\
  (get_dimmer_level 3 history_world).1
  = Return [ ("controller", PyStr "Pi"); ("dimmer", PyInt 3);
             ("location", PyStr "Lab"); ("type", PyStr "level");
             ("value", PyInt 42) ] /\
  (set_dimmer_level 3 (PyInt 10) history_world).1 = Raise (RuntimeError "Not ready") /\
  commands (network (self (set_dimmer_level 3 (PyInt 10) history_world).2)) = [].
Proof. vm_compute. done. Qed.

(** [f_to_c] on a float is the conversion in binary64 arithmetic, and on
    an integer the correctly rounded quotient of exact integers. *)
Lemma f_to_c_float (x : float) :
  f_to_c (PyFloat x) = Return (PyFloat ((x - 32) * 5 / 9)%float).
Proof. reflexivity. Qed.

Lemma f_to_c_int (z : Z) : f_to_c (PyInt z) = int_truediv ((z - 32) * 5) 9.
Proof. reflexivity. Qed.

(** On an integer of at most ten bits and a sign, [f_to_c] gives what
    the conversion gives in binary64 arithmetic on the float of the same
    number: there the difference and the product are exact in both, and
    the quotient is rounded once in both. *)
Lemma f_to_c_int_small (z : Z) :
  -1024 < z < 1024 ->
  f_to_c (PyInt z)
  = Return (PyFloat
      (((if (z <? 0)%Z
         then - PrimFloat.of_uint63 (Uint63.of_Z (- z)%Z)
         else PrimFloat.of_uint63 (Uint63.of_Z z)) - 32) * 5 / 9)%float).
Proof.
  intros Hz.
  assert (forallb
            (fun z =>
               match f_to_c (PyInt z) with
               | Return (PyFloat q) =>
                   PrimFloat.Leibniz.eqb q
                     (((if (z <? 0)%Z
                        then - PrimFloat.of_uint63 (Uint63.of_Z (- z)%Z)
                        else PrimFloat.of_uint63 (Uint63.of_Z z)) - 32) * 5 / 9)%float
               | _ => false
               end) (seqZ (-1023) 2047) = true) as H.
  { vm_compute. reflexivity. }
  rewrite forallb_forall in H.
  assert (In z (seqZ (-1023) 2047)) as Hin.
  { apply list_elem_of_In, elem_of_seqZ. lia. }
  specialize (H z Hin).
  destruct (f_to_c (PyInt z)) as [[| | |q| | | |]|e]; try discriminate H.
  f_equal. f_equal. apply Leibniz.eqb_spec, H.
Qed.

(** The first element of a comprehension is the element expression on
    the first item. *)
Lemma comprehension_first {A B : Type} (f : A -> outcome B) (x : A) (l : list A) (y : B) :
  obind (comprehension f (x :: l)) first = Return y -> f x = Return y.
Proof.
  cbn. destruct (f x) as [y'|]; [|done]. cbn.
  destruct (comprehension f l); cbn; [|done]. by intros [= ->].
Qed.

(** C10: the value a successful [get_sensor_luminance] returns is that of
    the first Luminance value of the node: the reading itself when its
    unit is ["C"], and the reading taken through [f_to_c], that is
    [(reading - 32) * 5 / 9], for every other unit.  For every other unit
    the reading is then a number, and the value is a float: for a float
    reading [x] it is [(x - 32) * 5 / 9] in binary64 arithmetic; for an
    integer reading [z] (a boolean counts as 0 or 1) the difference and
    the product are exact and the value is the finite binary64 quotient
    of the integers [(z - 32) * 5] and [9], rounded once. *)
Theorem get_sensor_luminance_converts
    (n : Z) (w w' : world) (d : list (string * pyval)) :
  get_sensor_luminance n w = (Return d, w') ->
  exists node v rest,
    (_lookup_sensor_node n w).1 = Return node /\
    get_values node (Only 49) (Only "User") (Only true) (Only false)
               (Only "Luminance") = v :: rest /\
    dict_get "value" d = Some (get_value d) /\
    (units v.2 = "C" -> get_value d = data v.2) /\
    (units v.2 <> "C" -> f_to_c (data v.2) = Return (get_value d)) /\
    (forall x : float, units v.2 <> "C" -> data v.2 = PyFloat x ->
       get_value d = PyFloat ((x - 32) * 5 / 9)%float) /\
    (units v.2 <> "C" ->
       match data v.2 with
       | PyFloat x => get_value d = PyFloat ((x - 32) * 5 / 9)%float
       | PyInt z =>
           let q := SF2Prim (SFdiv prec emax (Z2SF ((z - 32) * 5)) (Z2SF 9)) in
           get_value d = PyFloat q /\ PrimFloat.is_infinity q = false
       | PyBool b =>
           let q := SF2Prim (SFdiv prec emax (Z2SF ((Z.b2z b - 32) * 5)) (Z2SF 9)) in
           get_value d = PyFloat q /\ PrimFloat.is_infinity q = false
       | _ => False
       end).
Proof.
  unfold get_sensor_luminance, sensor_reading. intros H.
  apply bind_inv in H as (node & w1 & Hn & H).
  change (labels_xref "luminance") with "Luminance" in H.
  destruct (get_values node _ _ _ _ _) as [|v rest] eqn:Hv.
  { discriminate. }
  apply bind_inv in H as ([] & w2 & _ & H).
  apply bind_inv in H as (value_ & w3 & Hc & H).
  apply bind_inv in H as (s & w4 & _ & H).
  apply bind_inv in H as (ut & w5 & _ & H).
  injection H as <- _.
  unfold lift in Hc. injection Hc as Hc _.
  apply comprehension_first in Hc. unfold celsius in Hc.
  exists node, v, rest. rewrite Hn. split; [done|]. split; [done|].
  split; [done|]. change (get_value _) with value_.
  case_bool_decide as Hu.
  - injection Hc as <-. split; [done|]. split; [done|]. split; done.
  - split; [done|]. split; [done|]. split.
    + intros x _ Hx. rewrite Hx, f_to_c_float in Hc. by injection Hc as <-.
    + intros _. destruct (data v.2) as [|b|z|x| | | |]; try discriminate Hc.
      * change (f_to_c (PyBool b)) with (int_truediv ((Z.b2z b - 32) * 5) 9) in Hc.
        unfold int_truediv in Hc. cbn [Z.eqb] in Hc. cbn zeta.
        destruct (PrimFloat.is_infinity _); [discriminate Hc|].
        by injection Hc as <-.
      * rewrite f_to_c_int in Hc.
        unfold int_truediv in Hc. cbn [Z.eqb] in Hc. cbn zeta.
        destruct (PrimFloat.is_infinity _); [discriminate Hc|].
        by injection Hc as <-.
      * rewrite f_to_c_float in Hc. by injection Hc as <-.
Qed.

Lemma get_sensor_luminance_converts_witness :
  get_sensor_luminance 2 history_world
  = (Return [ ("controller", PyStr "Pi"); ("sensor", PyInt 2);
              ("location", PyStr "Lab"); ("type", PyStr "luminance");
              ("updateTime", PyNone); ("value", PyFloat 100) ],
     (get_sensor_luminance 2 history_world).2) /\
  (exists node v rest,
    (_lookup_sensor_node 2 history_world).1 = Return node /\
    get_values node (Only 49) (Only "User") (Only true) (Only false)
               (Only "Luminance") = v :: rest /\
    units v.2 = "lux" /\ data v.2 = PyFloat 212) /\
  (exists d,
    (get_sensor_luminance 7 lux_world).1 = Return d /\
    get_value d = PyFloat 0x1.2e38e38e38e39p+5) /\
  (exists d,
    (get_sensor_luminance 8 lux_world).1 = Return d /\
    get_value d = PyFloat (-0x1.138e38e38e38ep+4)).
Proof.
  assert (H : get_sensor_luminance 2 history_world
              = (Return [ ("controller", PyStr "Pi"); ("sensor", PyInt 2);
                          ("location", PyStr "Lab"); ("type", PyStr "luminance");
                          ("updateTime", PyNone); ("value", PyFloat 100) ],
                 (get_sensor_luminance 2 history_world).2)).
  { vm_compute. reflexivity. }
  split; [exact H|]. split; [|split].
  - destruct (get_sensor_luminance_converts _ _ _ _ H)
      as (node & v & rest & Hn & Hv & _).
    exists node, v, rest. split; [exact Hn|]. split; [exact Hv|].
    vm_compute in Hn. injection Hn as <-.
    vm_compute in Hv. injection Hv as <- _. split; reflexivity.
  - destruct (get_sensor_luminance 7 lux_world) as [[d|e] w7] eqn:E;
      [|vm_compute in E; discriminate E].
    exists d. split; [reflexivity|].
    destruct (get_sensor_luminance_converts _ _ _ _ E)
      as (node & v & rest & Hn & Hv & _ & _ & _ & _ & Hq).
    vm_compute in Hn. injection Hn as <-.
    vm_compute in Hv. injection Hv as <- _.
    destruct (Hq ltac:(discriminate)) as [-> _]. vm_compute. reflexivity.
  - destruct (get_sensor_luminance 8 lux_world) as [[d|e] w8] eqn:E;
      [|vm_compute in E; discriminate E].
    exists d. split; [reflexivity|].
    destruct (get_sensor_luminance_converts _ _ _ _ E)
      as (node & v & rest & Hn & Hv & _ & _ & _ & _ & Hq).
    vm_compute in Hn. injection Hn as <-.
    vm_compute in Hv. injection Hv as <- _.
    destruct (Hq ltac:(discriminate)) as [-> _]. vm_compute. reflexivity.
Defined.

(** * Further properties *)

(** ** The timestamps of the nodes *)

(** Two nodes share a timestamp label only if they have the same id. *)
Lemma _tstamp_label_inj (a b : ZWaveNode) :
  _tstamp_label a = _tstamp_label b -> node_id a = node_id b.
Proof.
  unfold _tstamp_label. intros H.
  apply (inj (String.app "timestamp")) in H. by apply (inj pretty) in H.
Qed.

Lemma _node_removed_timestamps (node : ZWaveNode) (w : world) :
  timestamps (self (_node_removed node w).2)
  = delete (_tstamp_label node) (timestamps (self w)).
Proof.
  unfold _node_removed, _del_node_timestamp, timestamps_pop, bind, get_self,
    modify_self, logger, ret.
  cbn. apply delete_delete_eq.
Qed.

(** What [_value_update] does to the timestamps, whatever the clock
    gives: nothing when the reading is not a finite number. *)
Lemma _value_update_timestamps_cases (node : ZWaveNode) (v : ZWaveValue) (w : world) :
  timestamps (self (_value_update node v w).2)
  = match py_int (clock (proc w) (clock_reads (proc w))) with
    | Return ts => <[_tstamp_label node := Some ts]> (timestamps (self w))
    | Raise _ => timestamps (self w)
    end.
Proof.
  unfold _value_update, bind, time_time, lift. cbn [fst snd proc with_proc].
  destruct (py_int _); reflexivity.
Qed.

(** X1: a notification about a node (added, removed, value updated)
    leaves the timestamp of every node with another id as it was. *)
Theorem handlers_touch_one_timestamp
    (node other : ZWaveNode) (v : ZWaveValue) (w : world) :
  node_id other <> node_id node ->
  timestamps (self (_node_added node w).2) !! _tstamp_label other
    = timestamps (self w) !! _tstamp_label other /\
  timestamps (self (_node_removed node w).2) !! _tstamp_label other
    = timestamps (self w) !! _tstamp_label other /\
  timestamps (self (_value_update node v w).2) !! _tstamp_label other
    = timestamps (self w) !! _tstamp_label other.
Proof.
  intros Hid.
  assert (_tstamp_label node <> _tstamp_label other) as Hl.
  { intros E. apply Hid. symmetry. by apply _tstamp_label_inj. }
  split; [|split].
  - rewrite _node_added_timestamps. by apply lookup_insert_ne.
  - rewrite _node_removed_timestamps. by apply lookup_delete_ne.
  - rewrite _value_update_timestamps_cases.
    destruct (py_int _); [by apply lookup_insert_ne|done].
Qed.

Lemma handlers_touch_one_timestamp_witness :
  node_id dimmer3 <> node_id node5 /\
  timestamps (self (_node_added node5 history_world).2) !! "timestamp3"
    = Some (Some 1699999999) /\
  timestamps (self (_node_removed node5 history_world).2) !! "timestamp3"
    = Some (Some 1699999999) /\
  timestamps (self (_value_update node5 (a_value 1 "Level" "" PyNone 38 false)
                                  history_world).2) !! "timestamp3"
    = Some (Some 1699999999).
Proof.
  assert (H : node_id dimmer3 <> node_id node5) by (cbn; lia).
  split; [exact H|].
  destruct (handlers_touch_one_timestamp node5 dimmer3
              (a_value 1 "Level" "" PyNone 38 false) history_world H)
    as (H1 & H2 & H3).
  change (_tstamp_label dimmer3) with "timestamp3" in H1, H2, H3.
  rewrite H1, H2, H3. split; [|split]; vm_compute; reflexivity.
Defined.

(** X2: a node that is added and then removed leaves no trace in the
    timestamps: its entry is gone, [_has_timestamp] answers [False],
    [_get_node_timestamp] answers [None], and the other entries are those
    from before. *)
Theorem node_added_then_removed (node : ZWaveNode) (w : world) :
  let w' := (_node_removed node (_node_added node w).2).2 in
  timestamps (self w') = delete (_tstamp_label node) (timestamps (self w)) /\
  (_has_timestamp node w').1 = Return false /\
  (_get_node_timestamp node w').1 = Return None /\
  node_removed (self w') = Some node.
Proof.
  cbn zeta.
  assert (timestamps (self (_node_removed node (_node_added node w).2).2)
          = delete (_tstamp_label node) (timestamps (self w))) as E.
  { rewrite _node_removed_timestamps, _node_added_timestamps.
    apply delete_insert_eq. }
  split; [exact E|]. split; [|split].
  - rewrite _has_timestamp_result, E. f_equal. apply bool_decide_eq_false.
    rewrite dom_delete_L. apply not_elem_of_difference. right.
    by apply elem_of_singleton.
  - unfold _get_node_timestamp, bind, get_self, ret. cbn [fst snd].
    by rewrite E, lookup_delete_eq.
  - reflexivity.
Qed.

(** X3: delivering the same node-added notification twice leaves the
    instance as one delivery does: one entry for the node, holding
    [None], and the node as the last one added. *)
Theorem node_added_twice (node : ZWaveNode) (w : world) :
  self (_node_added node (_node_added node w).2).2 = self (_node_added node w).2 /\
  timestamps (self (_node_added node w).2) !! _tstamp_label node = Some None /\
  node_added (self (_node_added node w).2) = Some node.
Proof.
  split; [|split].
  - unfold _node_added, _set_node_timestamp, bind, modify_self, logger, with_self.
    cbn. unfold with_timestamps, with_node_added. cbn.
    by rewrite insert_insert_eq.
  - rewrite _node_added_timestamps. apply lookup_insert_eq.
  - reflexivity.
Qed.

(** X4: removing a node that has no entry is tolerated: the handler
    returns, the timestamps are as they were, and
    [_del_node_timestamp] answers [None]. *)
Theorem node_removed_unknown (node : ZWaveNode) (w : world) :
  _tstamp_label node ∉ dom (timestamps (self w)) ->
  (_node_removed node w).1 = Return tt /\
  timestamps (self (_node_removed node w).2) = timestamps (self w) /\
  (_del_node_timestamp node w).1 = Return None.
Proof.
  intros H. apply not_elem_of_dom in H. split; [reflexivity|]. split.
  - rewrite _node_removed_timestamps. by apply delete_id.
  - unfold _del_node_timestamp, timestamps_pop, bind, get_self, modify_self, ret.
    cbn. by rewrite H.
Qed.

Lemma node_removed_unknown_witness :
  ("timestamp5" ∉ dom (timestamps (self history_world))) /\
  (_node_removed node5 history_world).1 = Return tt /\
  timestamps (self (_node_removed node5 history_world).2)
    = timestamps (self history_world) /\
  (_del_node_timestamp node5 history_world).1 = Return None.
Proof.
  assert (H : _tstamp_label node5 ∉ dom (timestamps (self history_world))).
  { vm_compute. set_solver. }
  split; [exact H|]. exact (node_removed_unknown node5 history_world H).
Defined.

(** X5: after a value update the node has a timestamp, the time of the
    update, which replaces the one it had; when the node had an entry the
    number of entries does not change. *)
Theorem value_update_refreshes
    (node : ZWaveNode) (v : ZWaveValue) (w : world) (ts : Z) :
  py_int (clock (proc w) (clock_reads (proc w))) = Return ts ->
  let w' := (_value_update node v w).2 in
  (_get_node_timestamp node w').1 = Return (Some ts) /\
  (_has_timestamp node w').1 = Return true /\
  (_tstamp_label node ∈ dom (timestamps (self w)) ->
   size (timestamps (self w')) = size (timestamps (self w))).
Proof.
  intros Hts. cbn zeta.
  pose proof (_value_update_timestamps node v w ts Hts) as E.
  split; [|split].
  - unfold _get_node_timestamp, bind, get_self, ret. cbn [fst snd].
    by rewrite E, lookup_insert_eq.
  - rewrite _has_timestamp_result, E. f_equal. apply bool_decide_eq_true.
    rewrite dom_insert. set_solver.
  - intros [x Hx]%elem_of_dom. rewrite E. by eapply map_size_insert_Some.
Qed.

Lemma value_update_refreshes_witness :
  py_int (clock (proc history_world) (clock_reads (proc history_world)))
    = Return 1700000000 /\
  (_get_node_timestamp dimmer3
     (_value_update dimmer3 (a_value 21 "Level" "" (PyInt 50) 38 false)
                    history_world).2).1 = Return (Some 1700000000) /\
  size (timestamps (self (_value_update dimmer3
                            (a_value 21 "Level" "" (PyInt 50) 38 false)
                            history_world).2)) = 1%nat.
Proof.
  assert (H : py_int (clock (proc history_world) (clock_reads (proc history_world)))
              = Return 1700000000) by (vm_compute; reflexivity).
  split; [exact H|].
  destruct (value_update_refreshes dimmer3 (a_value 21 "Level" "" (PyInt 50) 38 false)
              history_world 1700000000 H) as (H1 & _ & H3).
  split; [exact H1|]. rewrite H3; [reflexivity|]. vm_compute. set_solver.
Defined.

(** ** Looking a node up *)

(** X6: [_lookup_node] answers with a node of the network that has the
    wanted id, and answers [None] only when the network has no such node;
    it never raises and changes nothing but the log. *)
Theorem _lookup_node_spec (nid : Z) (w : world) :
  match (_lookup_node nid w).1 with
  | Return (Some node) =>
      node_id node = nid /\ node ∈ dict_values (nodes (network (self w)))
  | Return None =>
      forall node, node ∈ dict_values (nodes (network (self w))) -> node_id node <> nid
  | Raise _ => False
  end /\
  same_but_log w (_lookup_node nid w).2.
Proof.
  split; [|by repeat split].
  unfold _lookup_node, bind, get_self, logger, ret. cbn [fst snd self with_proc].
  destruct (head _) as [node|] eqn:H.
  - apply head_Some_elem_of, list_elem_of_filter in H. exact H.
  - intros node Hin Hid. apply head_None in H.
    assert (node ∈ filter (fun node => node_id node = nid)
                          (dict_values (nodes (network (self w))))) as Hf.
    { by apply list_elem_of_filter. }
    rewrite H in Hf. by apply elem_of_nil in Hf.
Qed.

(** X7: when the driver files each node under its id, looking a node up
    by id is reading the driver's dictionary at that key. *)
Theorem _lookup_node_is_dict_get (nid : Z) (w : world) :
  (forall k node, (k, node) ∈ nodes (network (self w)) -> node_id node = k) ->
  (_lookup_node nid w).1 = Return (dict_get nid (nodes (network (self w)))).
Proof.
  unfold _lookup_node, bind, get_self, logger, ret. cbn [fst snd self with_proc].
  intros Hid. f_equal. unfold dict_values.
  induction (nodes (network (self w))) as [|[k node] l IH]; [done|].
  cbn. rewrite (Hid k node) by left.
  destruct (decide (nid = k)) as [->|Hne].
  - by rewrite decide_True.
  - rewrite decide_False by done. apply IH.
    intros k' node' Hin. apply Hid. by right.
Qed.

Lemma _lookup_node_is_dict_get_witness :
  (forall k node,
     (k, node) ∈ nodes (network (self unordered_world)) -> node_id node = k) /\
  (_lookup_node 2 unordered_world).1 = Return (Some sensor2) /\
  (_lookup_node 7 unordered_world).1 = Return None.
Proof.
  assert (Hid : forall k node,
             (k, node) ∈ nodes (network (self unordered_world)) -> node_id node = k).
  { cbn. intros k node Hin.
    repeat (apply elem_of_cons in Hin as [[= -> ->]|Hin]; [reflexivity|]).
    by apply elem_of_nil in Hin. }
  split; [exact Hid|].
  rewrite !(_lookup_node_is_dict_get _ unordered_world Hid). split; reflexivity.
Defined.

(** ** Starting and stopping *)

(** A poll that finds the network ready at its read number [k], and not
    before, has slept [k] times and says so in the log. *)
Lemma start_poll_ready_at (r : list Z) (k : nat) (i : Z) (w : world) :
  r !! k = Some i ->
  (forall j : nat, (j < k)%nat ->
     ready_oracle (network (self w)) (ready_reads (network (self w)) + j) = false) ->
  ready_oracle (network (self w)) (ready_reads (network (self w)) + k) = true ->
  exists w',
    start_poll r w = (Return false, w') /\
    sleeps (proc w') = sleeps (proc w) ++ replicate k 1%float /\
    log (proc w')
      = log (proc w)
        ++ [ {| level := DEBUG; fmt := "Network ready after {}s"; args := [AInt i] |} ] /\
    ready_reads (network (self w')) = S (ready_reads (network (self w)) + k) /\
    ready_oracle (network (self w')) = ready_oracle (network (self w)) /\
    nodes_count (network (self w')) = nodes_count (network (self w)) /\
    commands (network (self w')) = commands (network (self w)) /\
    started (proc w') = started (proc w).
Proof.
  revert k w. induction r as [|x r IH]; intros k w Hk Hf Ht; [done|].
  cbn [start_poll]. step. destruct k as [|k].
  - injection Hk as ->. rewrite Nat.add_0_r in Ht. rewrite Ht.
    eexists. split; [reflexivity|]. cbn. rewrite app_nil_r, Nat.add_0_r. done.
  - pose proof (Hf 0%nat ltac:(lia)) as H0. rewrite Nat.add_0_r in H0. rewrite H0.
    step. cbn in Hk.
    match goal with |- context [start_poll r ?w0] =>
      destruct (IH k w0 Hk) as (w' & -> & Hs & Hl & Hr & Ho & Hn & Hc & Hst) end.
    { intros j Hj. cbn. rewrite <- Nat.add_succ_r. apply Hf. lia. }
    { cbn. by rewrite <- Nat.add_succ_r. }
    exists w'. split; [reflexivity|].
    rewrite Hs, Hl, Hr, Ho, Hn, Hc, Hst. cbn. rewrite <- app_assoc. cbn.
    rewrite <- Nat.add_succ_r. done.
Qed.

(** X8: when the network gets ready at poll number [k], within the
    configured timeout, [start] returns [(True, 'OK')] after [k] sleeps
    of one second, having sent the start command once; the log reports
    the network ready after [k] seconds and "really" ready. *)
Theorem start_ready_after (k : nat) (w : world) :
  started (proc w) = false ->
  (k < Z.to_nat (network_ready_timeout (self w)))%nat ->
  (forall j : nat, (j < k)%nat ->
     ready_oracle (network (self w)) (ready_reads (network (self w)) + j) = false) ->
  ready_oracle (network (self w)) (ready_reads (network (self w)) + k) = true ->
  exists w',
    start w = (Return (true, "OK"), w') /\
    started (proc w') = true /\
    sleeps (proc w') = sleeps (proc w) ++ replicate k 1%float /\
    commands (network (self w')) = commands (network (self w)) ++ [NetStart] /\
    log (proc w')
      = log (proc w)
        ++ [ {| level := INFO;
                fmt := "Z-Wave Network Starting -- timeout in {}s. Please wait...";
                args := [AInt (network_ready_timeout (self w))] |};
             {| level := DEBUG; fmt := "Network ready after {}s";
                args := [AInt (Z.of_nat k)] |} ]
        ++ (if ready_oracle (network (self w)) (S (ready_reads (network (self w)) + k))
            then []
            else [ {| level := WARNING;
                      fmt := "Network is not ready after {}s. You should increase `network_ready_timeout`. Continuing anyway...";
                      args := [AInt (network_ready_timeout (self w))] |} ])
        ++ [ {| level := INFO;
                fmt := "Network _{}_ ready. Nodes discovered: {}";
                args := [AStr "really"; AInt (nodes_count (network (self w)))] |} ].
Proof.
  intros Hs Hk Hf Ht. unfold start. step. rewrite Hs. do 3 step. unfold bind at 1.
  match goal with |- context [start_poll ?r ?w0] =>
    destruct (start_poll_ready_at r k (Z.of_nat k) w0)
      as (w1 & -> & Hsl & Hl & Hr & Ho & Hn & Hc & Hst) end.
  { apply lookup_seqZ. cbn. split; lia. }
  { exact Hf. }
  { exact Ht. }
  cbn in Hsl, Hl, Hr, Ho, Hn, Hc, Hst.
  step. rewrite Ho, Hr.
  destruct (ready_oracle (network (self w)) (S (ready_reads (network (self w)) + k)));
    cbn; eexists; (split; [reflexivity|]);
    cbn; rewrite Hsl, Hl, Hn, Hc, <- ?app_assoc; done.
Qed.

Lemma start_ready_after_witness :
  started (proc prompt_world) = false /\
  (2 < Z.to_nat (network_ready_timeout (self prompt_world)))%nat /\
  (start prompt_world).1 = Return (true, "OK") /\
  sleeps (proc (start prompt_world).2) = [1%float; 1%float] /\
  commands (network (self (start prompt_world).2)) = [NetStart].
Proof.
  assert (Hk : (2 < Z.to_nat (network_ready_timeout (self prompt_world)))%nat)
    by (cbn; lia).
  split; [reflexivity|]. split; [exact Hk|].
  destruct (start_ready_after 2 prompt_world eq_refl Hk)
    as (w' & E & _ & S & C & _).
  - intros j Hj. cbn. apply bool_decide_eq_false. lia.
  - reflexivity.
  - rewrite E. cbn [fst snd]. rewrite S, C. repeat split.
Defined.

(** The polling loop sleeps at most once per value of its range, and
    reads the readiness of the network as often. *)
Lemma start_poll_bounded (r : list Z) (w : world) :
  exists b w',
    start_poll r w = (Return b, w') /\
    (length (sleeps (proc w')) <= length (sleeps (proc w)) + length r)%nat /\
    (ready_reads (network (self w'))
     <= ready_reads (network (self w)) + length r)%nat.
Proof.
  revert w. induction r as [|i r IH]; intros w.
  - exists true, w. cbn. split; [done|]. lia.
  - cbn [start_poll]. step. destruct (ready_oracle _ _).
    + eexists _, _. split; [reflexivity|]. cbn. lia.
    + step.
      match goal with |- context [start_poll r ?w0] =>
        destruct (IH w0) as (b & w' & -> & Hs & Hr) end.
      exists b, w'. split; [reflexivity|]. cbn in Hs, Hr.
      rewrite length_app in Hs. cbn in *. lia.
Qed.

Lemma start_bounded (w : world) :
  exists o w',
    start w = (o, w') /\
    (length (sleeps (proc w'))
     <= length (sleeps (proc w)) + Z.to_nat (network_ready_timeout (self w)))%nat /\
    (ready_reads (network (self w'))
     <= ready_reads (network (self w))
        + Z.to_nat (network_ready_timeout (self w)) + 1)%nat.
Proof.
  unfold start. step. destruct (started (proc w)).
  - eexists _, _. split; [reflexivity|]. cbn. lia.
  - do 3 step. unfold bind at 1.
    match goal with |- context [start_poll ?r ?w0] =>
      destruct (start_poll_bounded r w0) as (b & w1 & -> & Hs & Hr) end.
    rewrite length_seqZ in Hs, Hr. cbn in Hs, Hr.
    step. destruct (ready_oracle _ _); cbn;
      eexists _, _; (split; [reflexivity|]); cbn; lia.
Qed.

(** X9: the wait of [start] is bounded by the configured timeout,
    whatever the network does: at most [network_ready_timeout] sleeps of
    one second, and at most one read of the readiness more than that. *)
Theorem start_wait_is_bounded (w : world) :
  (length (sleeps (proc (start w).2))
   <= length (sleeps (proc w)) + Z.to_nat (network_ready_timeout (self w)))%nat /\
  (ready_reads (network (self (start w).2))
   <= ready_reads (network (self w)) + Z.to_nat (network_ready_timeout (self w)) + 1)%nat.
Proof.
  destruct (start_bounded w) as (o & w' & -> & Hs & Hr). by split.
Qed.

(** X10: [stop] sends the stop command whatever the flag says; when the
    driver stops, the flag is cleared, so that [start] goes through
    again and sends the start command. *)
Theorem stop_then_start (w : world) :
  stop_reply (network (self w)) = None ->
  exists w1 w2,
    stop w = (Return (true, "OK"), w1) /\
    started (proc w1) = false /\
    start w1 = (Return (true, "OK"), w2) /\
    started (proc w2) = true /\
    commands (network (self w2)) = commands (network (self w)) ++ [NetStop; NetStart].
Proof.
  intros H.
  assert (exists w1, stop w = (Return (true, "OK"), w1) /\
                     started (proc w1) = false /\
                     commands (network (self w1))
                     = commands (network (self w)) ++ [NetStop])
    as (w1 & E1 & F1 & C1).
  { unfold stop. do 3 step.
    cbn [self with_self with_proc with_network network with_commands stop_reply].
    rewrite H. cbn. eexists. repeat split. }
  destruct (start_not_started w1 F1) as (w2 & Hst & Hf & Hc).
  exists w1, w2. split; [exact E1|]. split; [exact F1|].
  split; [exact Hst|]. split; [exact Hf|].
  rewrite Hc, C1. by rewrite <- app_assoc.
Qed.

Lemma stop_then_start_witness :
  stop_reply (network (self rejecting_world)) = None /\
  started (proc rejecting_world) = true /\
  (stop rejecting_world).1 = Return (true, "OK") /\
  (start (stop rejecting_world).2).1 = Return (true, "OK") /\
  commands (network (self (start (stop rejecting_world).2).2)) = [NetStop; NetStart].
Proof.
  split; [reflexivity|]. split; [reflexivity|].
  destruct (stop_then_start rejecting_world eq_refl) as (w1 & w2 & E1 & _ & E2 & _ & C).
  rewrite E1. cbn [fst snd]. rewrite E2. cbn [fst snd]. rewrite C.
  repeat split.
Defined.

(** X11: when the driver fails to stop, [stop] reports the failure with
    the text of the exception, and the flag stays as it was: a started
    system stays started, and [start] is still refused. *)
Theorem stop_failure_keeps_flag (w : world) (e : string) :
  stop_reply (network (self w)) = Some e ->
  exists w1,
    stop w = (Return (false, e), w1) /\
    started (proc w1) = started (proc w) /\
    commands (network (self w1)) = commands (network (self w)) ++ [NetStop] /\
    (started (proc w) = true ->
     (start w1).1 = Return (false, "System already started. Skipping...")).
Proof.
  intros H.
  assert (exists w1, stop w = (Return (false, e), w1) /\
                     started (proc w1) = started (proc w) /\
                     commands (network (self w1))
                     = commands (network (self w)) ++ [NetStop])
    as (w1 & E1 & F1 & C1).
  { unfold stop. do 3 step.
    cbn [self with_self with_proc with_network network with_commands stop_reply].
    rewrite H. cbn. eexists. repeat split. }
  exists w1. split; [exact E1|]. split; [exact F1|]. split; [exact C1|].
  intros Hs. rewrite start_already_started; [done|]. by rewrite F1.
Qed.

Lemma stop_failure_keeps_flag_witness :
  stop_reply (network (self stuck_world)) = Some "driver is busy" /\
  (stop stuck_world).1 = Return (false, "driver is busy") /\
  started (proc (stop stuck_world).2) = true /\
  (start (stop stuck_world).2).1 = Return (false, "System already started. Skipping...").
Proof.
  split; [reflexivity|].
  destruct (stop_failure_keeps_flag stuck_world "driver is busy" eq_refl)
    as (w1 & E & Hs & _ & Hr).
  rewrite E. cbn [fst snd]. split; [reflexivity|]. split; [by rewrite Hs|].
  by apply Hr.
Defined.

(** ** Waiting for a node *)










(** The handlers leave the global flag alone, as they leave the driver. *)
Lemma yield_to_driver_frame (w : world) :
  exists w',
    yield_to_driver w = (Return tt, w') /\
    commands (network (self w')) = commands (network (self w)) /\
    started (proc w') = started (proc w).
Proof.
  unfold yield_to_driver. do 2 step.
  match goal with |- context [dispatch_all ?ns ?w0] =>
    change (started (proc w)) with (started (proc w0));
    change (commands (network (self w))) with (commands (network (self w0)));
    generalize w0; generalize ns end.
  intros ns. induction ns as [|n ns IH]; intros w0.
  - by exists w0.
  - cbn [dispatch_all]. unfold bind at 1.
    assert (exists w1, dispatch n w0 = (Return tt, w1) /\
                       commands (network (self w1)) = commands (network (self w0)) /\
                       started (proc w1) = started (proc w0)) as (w1 & -> & C1 & S1).
    { destruct n as [| | |node|node|node v]; cbn [dispatch];
        try destruct (connected (self w0)); eexists; (split; [reflexivity|]);
        try done.
      unfold _value_update, bind, time_time, lift.
      destruct (py_int _); done. }
    destruct (IH w1) as (w2 & -> & C2 & S2). exists w2.
    split; [reflexivity|]. by rewrite C2, S2.
Qed.

Lemma add_node_wait_frame (fuel : nat) (temp : option ZWaveNode) (start : float)
    (w : world) :
  exists o w',
    add_node_wait fuel temp start w = (o, w') /\
    started (proc w') = started (proc w) /\
    ((exists r, o = Return r /\
        commands (network (self w')) = commands (network (self w))) \/
     (o = Raise (RuntimeError "Timeout") /\
        commands (network (self w'))
        = commands (network (self w)) ++ [CtlCancelCommand])).
Proof.
  revert w. induction fuel as [|fuel IH]; intros w.
  - eexists _, _. split; [reflexivity|]. split; [done|]. left. by eexists.
  - cbn [add_node_wait].
    destruct (yield_to_driver_frame w) as (w1 & H1 & C1 & S1).
    rewrite (bind_return _ _ _ _ _ H1). step.
    destruct (py_eq_node _ _).
    + step. destruct (float_gt_Z _ _).
      * eexists _, _. split; [reflexivity|]. cbn. split; [done|].
        right. by rewrite C1.
      * match goal with |- context [add_node_wait fuel temp start ?w0] =>
          destruct (IH w0) as (o & w' & -> & Hs & Ho) end.
        exists o, w'. split; [reflexivity|]. cbn in Hs, Ho.
        rewrite Hs, S1. split; [done|]. by rewrite C1 in Ho.
    + eexists _, _. split; [reflexivity|]. split; [done|]. left. eexists.
      by rewrite C1.
Qed.

(** X14: whatever happens, [add_node] sends the inclusion command, and
    after it the cancellation exactly when the call raises "Timeout";
    it sends nothing else, and leaves the flag [started] alone. *)
Theorem add_node_cancels_on_timeout_only (fuel : nat) (w : world) :
  exists o w',
    add_node fuel w = (o, w') /\
    started (proc w') = started (proc w) /\
    ((o = Raise (RuntimeError "Timeout") /\
      commands (network (self w'))
      = commands (network (self w)) ++ [CtlAddNode; CtlCancelCommand]) \/
     (o <> Raise (RuntimeError "Timeout") /\
      commands (network (self w')) = commands (network (self w)) ++ [CtlAddNode])).
Proof.
  unfold add_node. cbn [truth_of_bound_method negb]. do 2 step.
  destruct (add_node_reply _).
  - do 2 step. unfold bind at 1.
    match goal with |- context [add_node_wait fuel ?t ?s ?w0] =>
      destruct (add_node_wait_frame fuel t s w0) as (o & w1 & -> & Hs & Ho) end.
    cbn in Hs, Ho. destruct Ho as [(r & -> & C)|[-> C]].
    + destruct r as [[]|].
      * destruct (yield_to_driver_frame w1) as (w2 & H2 & C2 & S2).
        rewrite (bind_return _ _ _ _ _ H2). step.
        destruct (node_added (self w2)); cbn;
          eexists _, _; (split; [reflexivity|]); rewrite S2, Hs, C2, C;
          (split; [done|]); by right.
      * eexists _, _. split; [reflexivity|]. rewrite Hs, C.
        split; [done|]. by right.
    + eexists _, _. split; [reflexivity|]. rewrite Hs, C, <- app_assoc.
      split; [done|]. by left.
  - eexists _, _. split; [reflexivity|]. cbn. split; [done|]. by right.
Qed.

(** The same facts for the wait loop of [remove_node]. *)
Lemma remove_node_wait_frame (fuel : nat) (temp : option ZWaveNode) (start : float)
    (w : world) :
  exists o w',
    remove_node_wait fuel temp start w = (o, w') /\
    started (proc w') = started (proc w) /\
    ((exists r, o = Return r /\
        commands (network (self w')) = commands (network (self w))) \/
     (o = Raise (RuntimeError "Timeout") /\
        commands (network (self w'))
        = commands (network (self w)) ++ [CtlCancelCommand])).
Proof.
  revert w. induction fuel as [|fuel IH]; intros w.
  - eexists _, _. split; [reflexivity|]. split; [done|]. left. by eexists.
  - cbn [remove_node_wait].
    destruct (yield_to_driver_frame w) as (w1 & H1 & C1 & S1).
    rewrite (bind_return _ _ _ _ _ H1). step.
    destruct (py_eq_node _ _).
    + step. destruct (float_gt_Z _ _).
      * eexists _, _. split; [reflexivity|]. cbn. split; [done|].
        right. by rewrite C1.
      * match goal with |- context [remove_node_wait fuel temp start ?w0] =>
          destruct (IH w0) as (o & w' & -> & Hs & Ho) end.
        exists o, w'. split; [reflexivity|]. cbn in Hs, Ho.
        rewrite Hs, S1. split; [done|]. by rewrite C1 in Ho.
    + eexists _, _. split; [reflexivity|]. split; [done|]. left. eexists.
      by rewrite C1.
Qed.

(** X15: [remove_node] has the guard of [add_node]: whatever the state
    of the network, it never fails with "Network is down" and sends the
    exclusion command; the cancellation follows exactly when the call
    raises "Timeout", and nothing else is sent. *)
Theorem remove_node_commands (fuel : nat) (w : world) :
  exists o w',
    remove_node fuel w = (o, w') /\
    o <> Raise (RuntimeError "Network is down") /\
    ((o = Raise (RuntimeError "Timeout") /\
      commands (network (self w'))
      = commands (network (self w)) ++ [CtlRemoveNode; CtlCancelCommand]) \/
     (o <> Raise (RuntimeError "Timeout") /\
      commands (network (self w')) = commands (network (self w)) ++ [CtlRemoveNode])).
Proof.
  unfold remove_node. cbn [truth_of_bound_method negb]. do 2 step.
  destruct (remove_node_reply _).
  - do 2 step. unfold bind at 1.
    match goal with |- context [remove_node_wait fuel ?t ?s ?w0] =>
      destruct (remove_node_wait_frame fuel t s w0) as (o & w1 & -> & Hs & Ho) end.
    cbn in Hs, Ho. destruct Ho as [(r & -> & C)|[-> C]].
    + destruct r as [[]|].
      * destruct (yield_to_driver_frame w1) as (w2 & H2 & C2 & S2).
        rewrite (bind_return _ _ _ _ _ H2). step.
        destruct (node_removed (self w2)); cbn;
          eexists _, _; (split; [reflexivity|]); rewrite C2, C;
          (split; [done|]); by right.
      * eexists _, _. split; [reflexivity|]. rewrite C.
        split; [done|]. by right.
    + eexists _, _. split; [reflexivity|]. rewrite C, <- app_assoc.
      split; [done|]. by left.
  - eexists _, _. split; [reflexivity|]. cbn. split; [done|]. by right.
Qed.





(** ** The lists of nodes *)

Section DictLookup.
Context {K V : Type} `{EqDecision K}.
Implicit Types (d : list (K * V)).

(** Reading a dictionary at the key of one of its items gives the value
    of the item. *)
Lemma dict_get_elem_of d k v : dict_wf d -> (k, v) ∈ d -> dict_get k d = Some v.
Proof.
  unfold dict_wf, dict_keys. induction d as [|[k' v'] d IH]; intros Hd Hin.
  - by apply elem_of_nil in Hin.
  - cbn in *. apply NoDup_cons in Hd as [Hk Hd].
    apply elem_of_cons in Hin as [[= -> ->]|Hin].
    + by rewrite decide_True.
    + rewrite decide_False; [by apply IH|].
      intros ->. apply Hk. apply list_elem_of_fmap. by exists (k', v).
Qed.

Lemma dict_get_None d k : k ∉ dict_keys d -> dict_get k d = None.
Proof.
  unfold dict_keys. induction d as [|[k' v'] d IH]; intros Hk; [done|].
  cbn in *. apply not_elem_of_cons in Hk as [Hne Hk].
  rewrite decide_False by done. by apply IH.
Qed.
End DictLookup.

(** X17: [get_nodes_list] has one entry per node of the network, under
    the node's id: the type of a node that is ready, the note
    "[not ready]" otherwise. *)
Theorem get_nodes_list_entries (w : world) :
  dict_wf (nodes (network (self w))) ->
  (forall k node, (k, node) ∈ nodes (network (self w)) -> node_id node = k) ->
  exists l,
    (get_nodes_list w).1 = Return l /\
    length l = length (nodes (network (self w))) /\
    (forall k node, (k, node) ∈ nodes (network (self w)) ->
       dict_get k l = Some (if is_ready node then type node else "[not ready]")) /\
    (forall k, k ∉ dict_keys (nodes (network (self w))) -> dict_get k l = None).
Proof.
  intros Hwf Hid. eexists. split; [by apply get_nodes_list_result|].
  set (entry := fun node : ZWaveNode =>
                  (node_id node, if is_ready node then type node else "[not ready]")).
  set (vs := dict_values (sorted_items (nodes (network (self w))))).
  assert (dict_keys (entry <$> vs) = dict_keys (sorted_items (nodes (network (self w)))))
    as Hkeys.
  { unfold dict_keys at 1. rewrite <- list_fmap_compose.
    rewrite <- (node_ids_are_keys (sorted_items _)); [done|].
    intros k node Hin. apply Hid. by rewrite <- (sorted_items_perm (nodes _)). }
  split; [|split].
  - unfold vs, dict_values. rewrite !length_fmap. by rewrite sorted_items_perm.
  - intros k node Hin. apply dict_get_elem_of.
    + unfold dict_wf. rewrite Hkeys. by apply sorted_items_wf.
    + rewrite <- (Hid k node Hin). apply (list_elem_of_fmap_2 entry).
      unfold vs, dict_values. apply list_elem_of_fmap. exists (k, node).
      split; [done|]. by rewrite sorted_items_perm.
  - intros k Hk. apply dict_get_None. rewrite Hkeys. unfold dict_keys in *.
    by rewrite sorted_items_perm.
Qed.

Lemma get_nodes_list_entries_witness :
  dict_wf (nodes (network (self unordered_world))) /\
  (forall k node,
     (k, node) ∈ nodes (network (self unordered_world)) -> node_id node = k) /\
  exists l,
    (get_nodes_list unordered_world).1 = Return l /\
    length l = 3%nat /\
    dict_get 2 l = Some "Home Security Sensor" /\
    dict_get 3 l = Some "[not ready]" /\
    dict_get 9 l = None.
Proof.
  assert (Hwf : dict_wf (nodes (network (self unordered_world)))).
  { unfold dict_wf. cbn. apply (bool_decide_unpack _). reflexivity. }
  assert (Hid : forall k node,
             (k, node) ∈ nodes (network (self unordered_world)) -> node_id node = k).
  { cbn. intros k node Hin.
    repeat (apply elem_of_cons in Hin as [[= -> ->]|Hin]; [reflexivity|]).
    by apply elem_of_nil in Hin. }
  split; [exact Hwf|]. split; [exact Hid|].
  destruct (get_nodes_list_entries unordered_world Hwf Hid) as (l & Hl & Hn & He & Ho).
  exists l. split; [exact Hl|]. split; [exact Hn|].
  split; [|split].
  - apply (He 2 sensor2). cbn. set_solver.
  - apply (He 3 dimmer3). cbn. set_solver.
  - apply Ho. cbn. apply (bool_decide_unpack _). reflexivity.
Defined.

Lemma dict_unique {K V : Type} `{EqDecision K} (d : list (K * V)) (k : K) (a b : V) :
  dict_wf d -> (k, a) ∈ d -> (k, b) ∈ d -> a = b.
Proof.
  intros Hd Ha Hb. apply (dict_get_elem_of _ _ _ Hd) in Ha, Hb. congruence.
Qed.

Lemma StronglySorted_fmap_filter {A : Type} (f : A -> Z) (P : A -> Prop)
    `{forall x, Decision (P x)} (l : list A) :
  StronglySorted Z.lt (f <$> l) -> StronglySorted Z.lt (f <$> filter P l).
Proof.
  induction l as [|x l IH]; intros Hl; [constructor|].
  rewrite fmap_cons in Hl.
  apply StronglySorted_inv in Hl as [Hl Hx]. rewrite filter_cons.
  destruct (decide (P x)); [|by apply IH].
  rewrite fmap_cons. constructor; [by apply IH|].
  rewrite Forall_forall in Hx. apply Forall_forall. intros y Hy. apply Hx.
  apply list_elem_of_fmap in Hy as (a & -> & Ha).
  apply list_elem_of_filter in Ha as [_ Ha]. by apply list_elem_of_fmap_2.
Qed.

(** The loop of [get_sensors_list] and [get_dimmers_list], for a test [c]
    that reads the instance and answers [p]: the nodes that pass the test
    get an entry, in the order of the loop. *)
Lemma for_each_classified (c : ZWaveNode -> M bool) (p : ZWaveNode -> bool)
    (w : world) (l : list ZWaveNode) (acc : list (Z * string)) :
  (forall node, c node w = (Return (p node), w)) ->
  NoDup (dict_keys acc ++ (node_id <$> l)) ->
  for_each
    (fun result node =>
       pass <- c node ;;
       if pass
       then
         if is_ready node
         then ret (dict_set (node_id node) (product_name node) result)
         else ret (dict_set (node_id node) "[not ready]" result)
       else ret result)
    l acc w
  = (Return (acc ++ ((fun node => (node_id node,
                                   if is_ready node then product_name node
                                   else "[not ready]"))
                     <$> filter (fun node => p node = true) l)), w).
Proof.
  intros Hc. revert acc. induction l as [|x l IH]; intros acc Hnd.
  - cbn. by rewrite app_nil_r.
  - cbn [for_each]. unfold bind at 1. unfold bind at 1. rewrite Hc.
    rewrite filter_cons.
    assert (node_id x ∉ dict_keys acc) as Hx.
    { apply NoDup_app in Hnd as (_ & Hd & _). intros Hin.
      apply (Hd _ Hin). left. }
    assert (NoDup (dict_keys acc ++ (node_id <$> l))) as Hnd'.
    { cbn in Hnd. apply NoDup_app in Hnd as (Ha & Hd & Hl).
      apply NoDup_cons in Hl as [_ Hl]. apply NoDup_app.
      split; [done|]. split; [|done].
      intros y Hy Hin. apply (Hd y Hy). by right. }
    destruct (p x) eqn:Hp.
    + rewrite decide_True by done.
      assert ((if is_ready x
               then ret (dict_set (node_id x) (product_name x) acc)
               else ret (dict_set (node_id x) "[not ready]" acc)) w
              = (Return (acc ++ [(node_id x,
                                  if is_ready x then product_name x
                                  else "[not ready]")]), w)) as ->.
      { destruct (is_ready x); cbn; by rewrite dict_set_fresh. }
      rewrite IH.
      * cbn. by rewrite <- app_assoc.
      * unfold dict_keys in *. rewrite fmap_app, <- app_assoc. exact Hnd.
    + rewrite decide_False by done. cbn [ret]. by apply IH.
Qed.

(** What the two lists are, in terms of the driver's dictionary. *)
Lemma get_sensors_list_result (w : world) :
  dict_wf (nodes (network (self w))) ->
  (forall k node, (k, node) ∈ nodes (network (self w)) -> node_id node = k) ->
  get_sensors_list w
  = (Return ((fun node => (node_id node,
                           if is_ready node then product_name node
                           else "[not ready]"))
             <$> filter (fun node => re_sensor (self w) (type node) = true)
                        (dict_values (sorted_items (nodes (network (self w)))))),
     w).
Proof.
  intros Hwf Hid. unfold get_sensors_list, _my_nodes. do 2 step. cbn [ret].
  rewrite (dict_of_items_wf _ (sorted_items_wf _ Hwf)).
  rewrite (for_each_classified _is_sensor
             (fun node => re_sensor (self w) (type node))); [done|done|].
  cbn. rewrite node_ids_are_keys.
  - apply (sorted_items_wf _ Hwf).
  - intros k node Hin. apply Hid. by rewrite <- (sorted_items_perm (nodes _)).
Qed.

Lemma get_dimmers_list_result (w : world) :
  dict_wf (nodes (network (self w))) ->
  (forall k node, (k, node) ∈ nodes (network (self w)) -> node_id node = k) ->
  (get_dimmers_list w).1
  = Return ((fun node => (node_id node,
                          if is_ready node then product_name node
                          else "[not ready]"))
            <$> filter (fun node => re_dimmer (self w) (type node) = true)
                       (dict_values (sorted_items (nodes (network (self w)))))).
Proof.
  intros Hwf Hid. unfold get_dimmers_list, _my_nodes. do 3 step. cbn [ret].
  cbn [self with_proc].
  rewrite (dict_of_items_wf _ (sorted_items_wf _ Hwf)).
  rewrite (for_each_classified _is_dimmer
             (fun node => re_dimmer (self w) (type node))); [done|done|].
  cbn. rewrite node_ids_are_keys.
  - apply (sorted_items_wf _ Hwf).
  - intros k node Hin. apply Hid. by rewrite <- (sorted_items_perm (nodes _)).
Qed.

(** The entries of such a list: ascending ids, and under the id of a node
    of the network an entry exactly when the node passes the test. *)
Lemma classified_list_spec (p : ZWaveNode -> bool) (ns : list (Z * ZWaveNode)) :
  dict_wf ns ->
  (forall k node, (k, node) ∈ ns -> node_id node = k) ->
  let l := (fun node => (node_id node,
                         if is_ready node then product_name node else "[not ready]"))
           <$> filter (fun node => p node = true) (dict_values (sorted_items ns)) in
  StronglySorted Z.lt (dict_keys l) /\
  (forall k node, (k, node) ∈ ns ->
     dict_get k l
     = if p node
       then Some (if is_ready node then product_name node else "[not ready]")
       else None).
Proof.
  intros Hwf Hid. cbn zeta.
  set (entry := fun node : ZWaveNode =>
                  (node_id node,
                   if is_ready node then product_name node else "[not ready]")).
  set (vs := dict_values (sorted_items ns)).
  assert (forall k node, (k, node) ∈ sorted_items ns -> node_id node = k) as Hid'.
  { intros k node Hin. apply Hid. by rewrite <- (sorted_items_perm ns). }
  assert (dict_keys (entry <$> filter (fun node => p node = true) vs)
          = node_id <$> filter (fun node => p node = true) vs) as Hkeys.
  { unfold dict_keys. by rewrite <- list_fmap_compose. }
  assert (StronglySorted Z.lt (node_id <$> filter (fun node => p node = true) vs))
    as Hs.
  { apply StronglySorted_fmap_filter. unfold vs.
    rewrite (node_ids_are_keys _ Hid'). by apply sorted_items_keys_sorted. }
  split; [by rewrite Hkeys|].
  intros k node Hin.
  assert (node ∈ vs) as Hv.
  { unfold vs, dict_values. apply list_elem_of_fmap. exists (k, node).
    split; [done|]. by rewrite sorted_items_perm. }
  destruct (p node) eqn:Hp.
  - apply dict_get_elem_of.
    + unfold dict_wf. rewrite Hkeys.
      clear -Hs. induction Hs as [|x l' _ IH Hx]; constructor; [|done].
      intros Hin. rewrite Forall_forall in Hx. apply Hx in Hin. lia.
    + rewrite <- (Hid k node Hin). apply (list_elem_of_fmap_2 entry).
      by apply list_elem_of_filter.
  - apply dict_get_None. rewrite Hkeys. intros Hk.
    apply list_elem_of_fmap in Hk as (node' & Hk & Hn').
    apply list_elem_of_filter in Hn' as [Hp' Hn'].
    unfold vs, dict_values in Hn'.
    apply list_elem_of_fmap in Hn' as ([k' node''] & -> & Hn'). cbn in *.
    rewrite (Hid' _ _ Hn') in Hk. subst k'.
    rewrite (sorted_items_perm ns) in Hn'.
    rewrite (dict_unique ns k node node'' Hwf Hin Hn') in Hp. congruence.
Qed.

(** X18: the entries of [get_sensors_list] are in ascending order of node
    id, and a node of the network has an entry exactly when its type
    matches the sensor pattern: its product name when it is ready, the
    note "[not ready]" otherwise.  The call changes nothing. *)
Theorem get_sensors_list_spec (w : world) :
  dict_wf (nodes (network (self w))) ->
  (forall k node, (k, node) ∈ nodes (network (self w)) -> node_id node = k) ->
  exists l,
    get_sensors_list w = (Return l, w) /\
    StronglySorted Z.lt (dict_keys l) /\
    (forall k node, (k, node) ∈ nodes (network (self w)) ->
       dict_get k l
       = if re_sensor (self w) (type node)
         then Some (if is_ready node then product_name node else "[not ready]")
         else None).
Proof.
  intros Hwf Hid. eexists. split; [by apply get_sensors_list_result|].
  apply (classified_list_spec (fun node => re_sensor (self w) (type node)) _ Hwf Hid).
Qed.

(** X19: the same for [get_dimmers_list] and the dimmer pattern.  The two
    patterns are tested apart: a node whose type matches both is in both
    lists, one whose type matches neither is in none. *)
Theorem get_dimmers_list_spec (w : world) :
  dict_wf (nodes (network (self w))) ->
  (forall k node, (k, node) ∈ nodes (network (self w)) -> node_id node = k) ->
  exists l,
    (get_dimmers_list w).1 = Return l /\
    StronglySorted Z.lt (dict_keys l) /\
    (forall k node, (k, node) ∈ nodes (network (self w)) ->
       dict_get k l
       = if re_dimmer (self w) (type node)
         then Some (if is_ready node then product_name node else "[not ready]")
         else None).
Proof.
  intros Hwf Hid. eexists. split; [by apply get_dimmers_list_result|].
  apply (classified_list_spec (fun node => re_dimmer (self w) (type node)) _ Hwf Hid).
Qed.

Lemma get_sensors_list_spec_witness :
  dict_wf (nodes (network (self mixed_world))) /\
  (forall k node,
     (k, node) ∈ nodes (network (self mixed_world)) -> node_id node = k) /\
  get_sensors_list mixed_world = (Return [(2, "Home Security Sensor")], mixed_world).
Proof.
  assert (Hwf : dict_wf (nodes (network (self mixed_world)))).
  { unfold dict_wf. cbn. apply (bool_decide_unpack _). reflexivity. }
  assert (Hid : forall k node,
             (k, node) ∈ nodes (network (self mixed_world)) -> node_id node = k).
  { cbn. intros k node Hin.
    repeat (apply elem_of_cons in Hin as [[= -> ->]|Hin]; [reflexivity|]).
    by apply elem_of_nil in Hin. }
  split; [exact Hwf|]. split; [exact Hid|].
  destruct (get_sensors_list_spec mixed_world Hwf Hid) as (l & Hl & _).
  rewrite Hl. f_equal. vm_compute in Hl. by injection Hl as <-.
Defined.

Lemma get_dimmers_list_spec_witness :
  dict_wf (nodes (network (self mixed_world))) /\
  (forall k node,
     (k, node) ∈ nodes (network (self mixed_world)) -> node_id node = k) /\
  (get_dimmers_list mixed_world).1
  = Return [(3, "[not ready]"); (4, "Light Dimmer Switch")].
Proof.
  assert (Hwf : dict_wf (nodes (network (self mixed_world)))).
  { unfold dict_wf. cbn. apply (bool_decide_unpack _). reflexivity. }
  assert (Hid : forall k node,
             (k, node) ∈ nodes (network (self mixed_world)) -> node_id node = k).
  { cbn. intros k node Hin.
    repeat (apply elem_of_cons in Hin as [[= -> ->]|Hin]; [reflexivity|]).
    by apply elem_of_nil in Hin. }
  split; [exact Hwf|]. split; [exact Hid|].
  destruct (get_dimmers_list_spec mixed_world Hwf Hid) as (l & Hl & _).
  rewrite Hl. vm_compute in Hl. by injection Hl as <-.
Defined.

(** ** The readings of a sensor *)

Lemma same_but_log_refl (w : world) : same_but_log w w.
Proof. by repeat split. Qed.

Lemma same_but_log_trans (w1 w2 w3 : world) :
  same_but_log w1 w2 -> same_but_log w2 w3 -> same_but_log w1 w3.
Proof.
  intros (A1 & A2 & A3 & A4 & A5 & A6) (B1 & B2 & B3 & B4 & B5 & B6).
  repeat split; congruence.
Qed.

(** [_lookup_sensor_node] in full: its result, and that it touches the
    log only. *)
Lemma _lookup_sensor_node_run (nid : Z) (w : world) :
  exists w',
    _lookup_sensor_node nid w = ((_lookup_sensor_node nid w).1, w') /\
    same_but_log w w'.
Proof.
  unfold _lookup_sensor_node, _lookup_node, _has_timestamp, _is_sensor, or_else,
    bind, get_self, logger, ret, raise.
  cbn [fst snd self with_proc].
  destruct (head _) as [node|]; [|eexists; split; [reflexivity|by repeat split]].
  destruct (is_ready node); cbn; [|case_bool_decide; cbn];
    try destruct (re_sensor _ _); eexists; (split; [reflexivity|by repeat split]).
Qed.

(** The body shared by the getters of a reading, in full: which error it
    raises, in which order, what it returns, and that it touches the log
    only. *)
Lemma sensor_reading_run (key : string) (ro wo : or_all bool)
    (missing dup : string) (elem : Z * ZWaveValue -> outcome pyval)
    (n : Z) (w : world) :
  exists w',
    sensor_reading key ro wo missing dup elem n w
    = (match (_lookup_sensor_node n w).1 with
       | Raise e => Raise e
       | Return node =>
           match get_values node (Only 49) (Only "User") ro wo
                            (Only (labels_xref key)) with
           | [] => Raise (RuntimeError missing)
           | v :: rest =>
               match obind (comprehension elem (v :: rest)) first with
               | Raise e => Raise e
               | Return x =>
                   Return [ ("controller", PyStr (controller_name (self w)));
                            ("sensor", PyInt (node_id node));
                            ("location", PyStr (location node));
                            ("type", PyStr key);
                            ("updateTime",
                             py_opt_int (default None
                               (timestamps (self w) !! _tstamp_label node)));
                            ("value", x) ]
               end
           end
       end, w') /\
    same_but_log w w'.
Proof.
  unfold sensor_reading.
  destruct (_lookup_sensor_node_run n w) as (w1 & E & Hq).
  unfold bind at 1.
  destruct (_lookup_sensor_node n w) as [o w0]. cbn [fst] in E |- *.
  injection E as <-.
  destruct o as [node|e]; [|eexists; split; [reflexivity|exact Hq]].
  destruct (get_values node _ _ _ _ _) as [|v rest];
    [eexists; split; [reflexivity|exact Hq]|].
  destruct Hq as (Hself & Hq).
  unfold bind at 1.
  set (r := obind (comprehension elem (v :: rest)) first).
  assert (exists w2, when (bool_decide (1 < length (v :: rest))%nat)
                          (logger WARNING dup [AInt (node_id node)]) w0
                     = (Return tt, w2) /\ same_but_log w0 w2) as (w2 & -> & Hq2).
  { case_bool_decide; eexists; (split; [reflexivity|by repeat split]). }
  unfold bind at 1, lift at 1.
  assert (same_but_log w w2) as Hq3.
  { eapply same_but_log_trans; [|exact Hq2]. by split. }
  destruct r as [x|e]; [|eexists; split; [reflexivity|exact Hq3]].
  unfold _get_node_timestamp, bind, get_self, ret. cbn [fst snd].
  destruct Hq3 as (Hs3 & Hq3). rewrite Hs3.
  eexists. split; [reflexivity|]. by split.
Qed.

Lemma comprehension_raw (v : Z * ZWaveValue) (rest : list (Z * ZWaveValue)) :
  obind (comprehension raw (v :: rest)) first = Return (data v.2).
Proof.
  cbn. assert (exists ys, comprehension raw rest = Return ys) as [ys ->]; [|done].
  induction rest as [|y rest [ys IH]]; [by eexists|]. cbn. rewrite IH. by eexists.
Qed.

(** X20: [get_sensor_humidity] in full.  It fails as
    [_lookup_sensor_node] fails, or with "Humidity: label not found" when
    the node has no read-only user value of the multilevel sensor class
    labelled "Relative Humidity"; otherwise it returns the reading of the
    first such value as it is, whatever its unit, with the node's
    timestamp as update time.  It changes nothing but the log. *)
Theorem get_sensor_humidity_spec (n : Z) (w : world) :
  exists w',
    get_sensor_humidity n w
    = (match (_lookup_sensor_node n w).1 with
       | Raise e => Raise e
       | Return node =>
           match get_values node (Only 49) (Only "User") (Only true) (Only false)
                            (Only "Relative Humidity") with
           | [] => Raise (RuntimeError "Humidity: label not found. Is this a sensor?")
           | v :: _ =>
               Return [ ("controller", PyStr (controller_name (self w)));
                        ("sensor", PyInt (node_id node));
                        ("location", PyStr (location node));
                        ("type", PyStr "humidity");
                        ("updateTime",
                         py_opt_int (default None
                           (timestamps (self w) !! _tstamp_label node)));
                        ("value", data v.2) ]
           end
       end, w') /\
    same_but_log w w'.
Proof.
  unfold get_sensor_humidity.
  destruct (sensor_reading_run "humidity" (Only true) (Only false)
              "Humidity: label not found. Is this a sensor?"
              "Node {}: get_values(Humidity) returned more than one value!?"
              raw n w) as (w' & E & Hq).
  exists w'. split; [|exact Hq]. rewrite E. f_equal.
  change (labels_xref "humidity") with "Relative Humidity".
  destruct ((_lookup_sensor_node n w).1) as [node|e]; [|done].
  destruct (get_values node _ _ _ _ _) as [|v rest]; [done|].
  by rewrite comprehension_raw.
Qed.

(** ** Methods that only read *)

Lemma quiet_ret {A : Type} (a : A) : quiet (ret a).
Proof. intros w. apply same_but_log_refl. Qed.

Lemma quiet_raise {A : Type} (e : exn) : quiet (@raise A e).
Proof. intros w. apply same_but_log_refl. Qed.

Lemma quiet_lift {A : Type} (o : outcome A) : quiet (lift o).
Proof. intros w. apply same_but_log_refl. Qed.

Lemma quiet_get_self : quiet get_self.
Proof. intros w. apply same_but_log_refl. Qed.

Lemma quiet_logger (l : log_level) (f : string) (a : list log_arg) :
  quiet (logger l f a).
Proof. intros w. by repeat split. Qed.

Lemma quiet_bind {A B : Type} (m : M A) (k : A -> M B) :
  quiet m -> (forall a, quiet (k a)) -> quiet (bind m k).
Proof.
  intros Hm Hk w. unfold bind. specialize (Hm w).
  destruct (m w) as [[a|e] w1]; cbn [snd] in Hm; [|exact Hm].
  eapply same_but_log_trans; [exact Hm|]. apply Hk.
Qed.

Lemma quiet_when (b : bool) (m : M unit) : quiet m -> quiet (when b m).
Proof. intros Hm. destruct b; [exact Hm|apply quiet_ret]. Qed.

Lemma quiet__lookup_node (nid : Z) : quiet (_lookup_node nid).
Proof.
  unfold _lookup_node. apply quiet_bind; [apply quiet_get_self|intros s].
  apply quiet_bind; [apply quiet_logger|intros _]. apply quiet_ret.
Qed.

Lemma quiet__has_timestamp (node : ZWaveNode) : quiet (_has_timestamp node).
Proof.
  unfold _has_timestamp. apply quiet_bind; [apply quiet_get_self|intros s].
  apply quiet_bind; [apply quiet_logger|intros _]. apply quiet_ret.
Qed.

Lemma quiet_ready_or_history (node : ZWaveNode) :
  quiet (or_else (is_ready node) (_has_timestamp node)).
Proof. unfold or_else. destruct (is_ready node); [apply quiet_ret|apply quiet__has_timestamp]. Qed.

Lemma quiet__is_sensor (node : ZWaveNode) : quiet (_is_sensor node).
Proof. apply quiet_bind; [apply quiet_get_self|intros s; apply quiet_ret]. Qed.

Lemma quiet__is_dimmer (node : ZWaveNode) : quiet (_is_dimmer node).
Proof. apply quiet_bind; [apply quiet_get_self|intros s; apply quiet_ret]. Qed.

Lemma quiet__lookup_sensor_node (nid : Z) : quiet (_lookup_sensor_node nid).
Proof.
  unfold _lookup_sensor_node.
  apply quiet_bind; [apply quiet__lookup_node|intros [node|]]; [|apply quiet_raise].
  apply quiet_bind; [apply quiet_ready_or_history|intros ok].
  destruct (negb ok); [apply quiet_raise|].
  apply quiet_bind; [apply quiet__is_sensor|intros sensor].
  destruct (negb sensor); [apply quiet_raise|apply quiet_ret].
Qed.

Lemma quiet_sensor_reading (key : string) (ro wo : or_all bool)
    (missing dup : string) (elem : Z * ZWaveValue -> outcome pyval) (n : Z) :
  quiet (sensor_reading key ro wo missing dup elem n).
Proof.
  unfold sensor_reading.
  apply quiet_bind; [apply quiet__lookup_sensor_node|intros node].
  destruct (get_values node _ _ _ _ _); [apply quiet_raise|].
  apply quiet_bind; [apply quiet_when; apply quiet_logger|intros _].
  apply quiet_bind; [apply quiet_lift|intros x].
  apply quiet_bind; [apply quiet_get_self|intros s].
  apply quiet_bind; [|intros ts; apply quiet_ret].
  apply quiet_bind; [apply quiet_get_self|intros s'; apply quiet_ret].
Qed.

Lemma quiet_get_dimmer_level (n : Z) : quiet (get_dimmer_level n).
Proof.
  unfold get_dimmer_level.
  apply quiet_bind; [apply quiet__lookup_node|intros [node|]]; [|apply quiet_raise].
  apply quiet_bind; [apply quiet_ready_or_history|intros ok].
  destruct (negb ok); [apply quiet_raise|].
  apply quiet_bind; [apply quiet__is_dimmer|intros dimmer].
  destruct (negb dimmer); [apply quiet_raise|].
  destruct (get_values node _ _ _ _ _); [apply quiet_raise|].
  apply quiet_bind; [apply quiet_when; apply quiet_logger|intros _].
  apply quiet_bind; [apply quiet_lift|intros x].
  apply quiet_bind; [apply quiet_get_self|intros s; apply quiet_ret].
Qed.

Lemma quiet__my_nodes : quiet _my_nodes.
Proof. apply quiet_bind; [apply quiet_get_self|intros s; apply quiet_ret]. Qed.

Lemma quiet_for_each {A B : Type} (body : A -> B -> M A) (l : list B) (a : A) :
  (forall a x, quiet (body a x)) -> quiet (for_each body l a).
Proof.
  intros Hb. revert a. induction l as [|x l IH]; intros a; cbn [for_each].
  - apply quiet_ret.
  - apply quiet_bind; [apply Hb|intros a'; apply IH].
Qed.

Lemma quiet_get_sensor_readings (n : Z) : quiet (get_sensor_readings n).
Proof.
  unfold get_sensor_readings.
  apply quiet_bind; [apply quiet__lookup_sensor_node|intros _].
  apply quiet_bind; [apply quiet_sensor_reading|intros t].
  apply quiet_bind; [apply quiet_sensor_reading|intros h].
  apply quiet_bind; [apply quiet_sensor_reading|intros l].
  apply quiet_bind; [apply quiet_sensor_reading|intros u].
  apply quiet_bind; [apply quiet_sensor_reading|intros b]. apply quiet_ret.
Qed.

(** X21: the queries only read.  The three lists, the six readings of a
    sensor, all the readings at once, the level of a dimmer and the
    lookups leave the instance, the driver (no command is sent), the
    flag, the clock and the output as they were, whether they return or
    raise; the log is all they write to. *)
Theorem queries_only_read (n : Z) :
  quiet get_nodes_list /\ quiet get_sensors_list /\ quiet get_dimmers_list /\
  quiet (_lookup_node n) /\ quiet (_lookup_sensor_node n) /\
  quiet (get_sensor_temperature n) /\ quiet (get_sensor_humidity n) /\
  quiet (get_sensor_luminance n) /\ quiet (get_sensor_ultraviolet n) /\
  quiet (get_sensor_motion n) /\ quiet (get_sensor_battery n) /\
  quiet (get_sensor_readings n) /\ quiet (get_dimmer_level n).
Proof.
  assert (forall (c : ZWaveNode -> M bool),
            (forall node, quiet (c node)) ->
            forall (result : list (Z * string)) (node : ZWaveNode),
              quiet (pass <- c node ;;
                     if pass
                     then
                       if is_ready node
                       then ret (dict_set (node_id node) (product_name node) result)
                       else ret (dict_set (node_id node) "[not ready]" result)
                     else ret result)) as Hbody.
  { intros c Hc result node. apply quiet_bind; [apply Hc|intros pass].
    destruct pass; [destruct (is_ready node)|]; apply quiet_ret. }
  repeat apply conj; try apply quiet_sensor_reading.
  - unfold get_nodes_list. apply quiet_bind; [apply quiet_logger|intros _].
    apply quiet_bind; [apply quiet__my_nodes|intros ns; apply quiet_ret].
  - unfold get_sensors_list. apply quiet_bind; [apply quiet__my_nodes|intros ns].
    apply quiet_for_each. apply Hbody, quiet__is_sensor.
  - unfold get_dimmers_list. apply quiet_bind; [apply quiet_logger|intros _].
    apply quiet_bind; [apply quiet__my_nodes|intros ns].
    apply quiet_for_each. apply Hbody, quiet__is_dimmer.
  - apply quiet__lookup_node.
  - apply quiet__lookup_sensor_node.
  - apply quiet_get_sensor_readings.
  - apply quiet_get_dimmer_level.
Qed.

(** What a lookup or a reading answers depends on the instance only. *)
Lemma _lookup_sensor_node_same (n : Z) (w w1 : world) :
  self w1 = self w ->
  (_lookup_sensor_node n w1).1 = (_lookup_sensor_node n w).1.
Proof.
  intros H. rewrite !_lookup_sensor_node_order.
  unfold _lookup_node, bind, get_self, logger, ret. cbn [fst snd self with_proc].
  by rewrite H.
Qed.

Lemma sensor_reading_same (key : string) (ro wo : or_all bool)
    (missing dup : string) (elem : Z * ZWaveValue -> outcome pyval)
    (n : Z) (w w1 : world) :
  self w1 = self w ->
  (sensor_reading key ro wo missing dup elem n w1).1
  = (sensor_reading key ro wo missing dup elem n w).1.
Proof.
  intros H.
  destruct (sensor_reading_run key ro wo missing dup elem n w) as (w' & -> & _).
  destruct (sensor_reading_run key ro wo missing dup elem n w1) as (w1' & -> & _).
  cbn [fst]. by rewrite (_lookup_sensor_node_same n w w1 H), H.
Qed.

(** The node [_lookup_sensor_node] answers with has the wanted id. *)
Lemma _lookup_sensor_node_id (n : Z) (w : world) (node : ZWaveNode) :
  (_lookup_sensor_node n w).1 = Return node -> node_id node = n.
Proof.
  rewrite _lookup_sensor_node_order.
  unfold _lookup_node, bind, get_self, logger, ret. cbn [fst snd self with_proc].
  destruct (head _) as [found|] eqn:Hh; [|done].
  destruct (_ || _); [|done]. destruct (re_sensor _ _); [|done].
  intros [= <-]. apply head_Some_elem_of, list_elem_of_filter in Hh. by destruct Hh.
Qed.

(** X22: the value a successful [get_sensor_temperature] returns is that
    of the first Temperature value of the node: the reading itself when
    its unit is ["C"], and [(reading - 32) * 5 / 9] for every other unit,
    which is thereby taken for degrees Fahrenheit. *)
Theorem get_sensor_temperature_converts
    (n : Z) (w w' : world) (d : list (string * pyval)) :
  get_sensor_temperature n w = (Return d, w') ->
  exists node v rest,
    (_lookup_sensor_node n w).1 = Return node /\
    get_values node (Only 49) (Only "User") (Only true) (Only false)
               (Only "Temperature") = v :: rest /\
    dict_get "value" d = Some (get_value d) /\
    (units v.2 = "C" -> get_value d = data v.2) /\
    (units v.2 <> "C" -> f_to_c (data v.2) = Return (get_value d)) /\
    (forall x : float, units v.2 <> "C" -> data v.2 = PyFloat x ->
       get_value d = PyFloat ((x - 32) * 5 / 9)%float).
Proof.
  unfold get_sensor_temperature. intros H.
  destruct (sensor_reading_run "temperature" (Only true) (Only false)
              "Temperature: label not found. Is this a sensor?"
              "Node {}: get_values(Temperature) returned more than one value!?"
              celsius n w) as (w'' & E & _).
  rewrite E in H. injection H as H _.
  change (labels_xref "temperature") with "Temperature" in H.
  destruct ((_lookup_sensor_node n w).1) as [node|e]; [|done].
  destruct (get_values node _ _ _ _ _) as [|v rest] eqn:Hv; [done|].
  destruct (obind _ first) as [x|e] eqn:Hc; [|done].
  injection H as <-. apply comprehension_first in Hc. unfold celsius in Hc.
  exists node, v, rest. split; [done|]. split; [done|]. split; [done|].
  change (get_value _) with x.
  case_bool_decide as Hu.
  - injection Hc as <-. done.
  - split; [done|]. split; [done|].
    intros y _ Hy. rewrite Hy, f_to_c_float in Hc. by injection Hc as <-.
Qed.

Lemma get_sensor_temperature_converts_witness :
  get_sensor_temperature 2 history_world
  = (Return [ ("controller", PyStr "Pi"); ("sensor", PyInt 2);
              ("location", PyStr "Lab"); ("type", PyStr "temperature");
              ("updateTime", PyNone); ("value", PyFloat 10) ],
     (get_sensor_temperature 2 history_world).2) /\
  exists node v rest,
    (_lookup_sensor_node 2 history_world).1 = Return node /\
    get_values node (Only 49) (Only "User") (Only true) (Only false)
               (Only "Temperature") = v :: rest /\
    units v.2 = "F" /\ data v.2 = PyFloat 50.
Proof.
  assert (H : get_sensor_temperature 2 history_world
              = (Return [ ("controller", PyStr "Pi"); ("sensor", PyInt 2);
                          ("location", PyStr "Lab"); ("type", PyStr "temperature");
                          ("updateTime", PyNone); ("value", PyFloat 10) ],
                 (get_sensor_temperature 2 history_world).2)).
  { vm_compute. reflexivity. }
  split; [exact H|].
  destruct (get_sensor_temperature_converts _ _ _ _ H)
    as (node & v & rest & Hn & Hv & _).
  exists node, v, rest. split; [exact Hn|]. split; [exact Hv|].
  vm_compute in Hn. injection Hn as <-.
  vm_compute in Hv. injection Hv as <- _. split; reflexivity.
Defined.

(** X23: a reading reports the time of the last value update of its
    node: after a value update for the node with id [n], at a time that
    [int] turns into [ts], a successful [get_sensor_humidity n] has
    [ts] as its update time. *)
Theorem reading_reports_update_time
    (node : ZWaveNode) (v : ZWaveValue) (n ts : Z) (w w' : world)
    (d : list (string * pyval)) :
  node_id node = n ->
  py_int (clock (proc w) (clock_reads (proc w))) = Return ts ->
  get_sensor_humidity n (_value_update node v w).2 = (Return d, w') ->
  dict_get "updateTime" d = Some (PyInt ts).
Proof.
  intros Hn Hts H. unfold get_sensor_humidity in H.
  destruct (sensor_reading_run "humidity" (Only true) (Only false)
              "Humidity: label not found. Is this a sensor?"
              "Node {}: get_values(Humidity) returned more than one value!?"
              raw n (_value_update node v w).2) as (w'' & E & _).
  rewrite E in H. injection H as H _.
  change (labels_xref "humidity") with "Relative Humidity" in H.
  destruct ((_lookup_sensor_node n _).1) as [found|e] eqn:Hf; [|done].
  destruct (get_values found _ _ _ _ _) as [|x rest]; [done|].
  change (obind (obind _ _) first)
    with (obind (comprehension raw (x :: rest)) first) in H.
  rewrite comprehension_raw in H.
  apply _lookup_sensor_node_id in Hf.
  assert (_tstamp_label found = _tstamp_label node) as El.
  { unfold _tstamp_label. by rewrite Hf, Hn. }
  rewrite El, (_value_update_timestamps node v w ts Hts), lookup_insert_eq in H.
  by injection H as <-.
Qed.

Lemma reading_reports_update_time_witness :
  node_id sensor2 = 2 /\
  py_int (clock (proc history_world) (clock_reads (proc history_world)))
    = Return 1700000000 /\
  (get_sensor_humidity 2 history_world).1
  = Return [ ("controller", PyStr "Pi"); ("sensor", PyInt 2);
             ("location", PyStr "Lab"); ("type", PyStr "humidity");
             ("updateTime", PyNone); ("value", PyFloat 40) ] /\
  exists d,
    (get_sensor_humidity 2
       (_value_update sensor2 (a_value 13 "Relative Humidity" "%" (PyFloat 41) 49 true)
                      history_world).2).1 = Return d /\
    dict_get "updateTime" d = Some (PyInt 1700000000).
Proof.
  split; [reflexivity|]. split; [vm_compute; reflexivity|].
  split; [vm_compute; reflexivity|].
  eexists. split; [vm_compute; reflexivity|].
  eapply (reading_reports_update_time sensor2
            (a_value 13 "Relative Humidity" "%" (PyFloat 41) 49 true)
            2 1700000000 history_world).
  - reflexivity.
  - vm_compute. reflexivity.
  - vm_compute. reflexivity.
Defined.

Lemma quiet_step {A : Type} (m : M A) (w w' : world) (o : outcome A) :
  quiet m -> m w = (o, w') -> self w' = self w.
Proof. intros Hm H. destruct (Hm w) as [Hs _]. by rewrite H in Hs. Qed.

(** X24: when [get_sensor_readings] returns, each of the five readings
    it collects (temperature, humidity, luminance, ultraviolet, battery;
    not motion) is available on its own, and the result holds their
    values, in that order: a sensor that lacks one of the five has no
    collected readings at all. *)
Theorem get_sensor_readings_collects
    (n : Z) (w w' : world) (d : list (string * pyval)) :
  get_sensor_readings n w = (Return d, w') ->
  exists t h l u b,
    (get_sensor_temperature n w).1 = Return t /\
    (get_sensor_humidity n w).1 = Return h /\
    (get_sensor_luminance n w).1 = Return l /\
    (get_sensor_ultraviolet n w).1 = Return u /\
    (get_sensor_battery n w).1 = Return b /\
    d = [ ("value temperature", get_value t); ("value humidity", get_value h);
          ("value luminance", get_value l); ("value ultraviolet", get_value u);
          ("value battery", get_value b) ].
Proof.
  unfold get_sensor_readings. intros H.
  apply bind_inv in H as (node & w0 & H0 & H).
  apply bind_inv in H as (t & w1 & H1 & H).
  apply bind_inv in H as (h & w2 & H2 & H).
  apply bind_inv in H as (l & w3 & H3 & H).
  apply bind_inv in H as (u & w4 & H4 & H).
  apply bind_inv in H as (b & w5 & H5 & H).
  injection H as <- _.
  pose proof (quiet_step _ _ _ _ (quiet__lookup_sensor_node n) H0) as S0.
  pose proof (quiet_step _ _ _ _ (quiet_sensor_reading _ _ _ _ _ _ _) H1) as S1.
  pose proof (quiet_step _ _ _ _ (quiet_sensor_reading _ _ _ _ _ _ _) H2) as S2.
  pose proof (quiet_step _ _ _ _ (quiet_sensor_reading _ _ _ _ _ _ _) H3) as S3.
  pose proof (quiet_step _ _ _ _ (quiet_sensor_reading _ _ _ _ _ _ _) H4) as S4.
  exists t, h, l, u, b.
  unfold get_sensor_temperature, get_sensor_humidity, get_sensor_luminance,
    get_sensor_ultraviolet, get_sensor_battery in *.
  split; [|split; [|split; [|split; [|split]]]].
  - rewrite <- (sensor_reading_same _ _ _ _ _ _ n w w0 S0). by rewrite H1.
  - rewrite <- (sensor_reading_same _ _ _ _ _ _ n w w1); [by rewrite H2|congruence].
  - rewrite <- (sensor_reading_same _ _ _ _ _ _ n w w2); [by rewrite H3|congruence].
  - rewrite <- (sensor_reading_same _ _ _ _ _ _ n w w3); [by rewrite H4|congruence].
  - rewrite <- (sensor_reading_same _ _ _ _ _ _ n w w4); [by rewrite H5|congruence].
  - reflexivity.
Qed.

Lemma get_sensor_readings_collects_witness :
  get_sensor_readings 6 full_world
  = (Return [ ("value temperature", PyFloat 21.5); ("value humidity", PyFloat 40);
              ("value luminance", PyFloat 300); ("value ultraviolet", PyFloat 0);
              ("value battery", PyInt 87) ],
     (get_sensor_readings 6 full_world).2) /\
  (exists h, (get_sensor_humidity 6 full_world).1 = Return h /\
             get_value h = PyFloat 40) /\
  (exists e, (get_sensor_readings 2 history_world).1 = Raise e).
Proof.
  assert (H : get_sensor_readings 6 full_world
              = (Return [ ("value temperature", PyFloat 21.5);
                          ("value humidity", PyFloat 40);
                          ("value luminance", PyFloat 300);
                          ("value ultraviolet", PyFloat 0);
                          ("value battery", PyInt 87) ],
                 (get_sensor_readings 6 full_world).2)).
  { vm_compute. reflexivity. }
  split; [exact H|]. split.
  - destruct (get_sensor_readings_collects _ _ _ _ H)
      as (t & h & l & u & b & _ & Hh & _ & _ & _ & Hd).
    exists h. split; [exact Hh|]. by injection Hd as _ <- _ _ _.
  - eexists. vm_compute. reflexivity.
Defined.

(** ** The level of a dimmer *)

(** A comprehension whose element expression never raises. *)
Lemma comprehension_total {A B : Type} (f : A -> outcome B) (g : A -> B)
    (x : A) (l : list A) :
  (forall a, f a = Return (g a)) ->
  obind (comprehension f (x :: l)) first = Return (g x).
Proof.
  intros Hf. cbn. rewrite Hf. cbn.
  assert (exists ys, comprehension f l = Return ys) as [ys ->]; [|done].
  induction l as [|y l [ys IH]]; [by eexists|]. cbn. rewrite Hf, IH. by eexists.
Qed.

(** X25: on a node that exists, is flagged ready, is a dimmer and has a
    user value labelled "Level", [set_dimmer_level] sends one command to
    the driver, setting the first such value to the level given, and
    returns the level the value had. *)
Theorem set_dimmer_level_sends_one_command
    (n : Z) (x : pyval) (w : world) (node : ZWaveNode)
    (v : Z * ZWaveValue) (rest : list (Z * ZWaveValue)) :
  (_lookup_node n w).1 = Return (Some node) ->
  is_ready node = true ->
  re_dimmer (self w) (type node) = true ->
  get_values node All (Only "User") All All (Only "Level") = v :: rest ->
  exists w',
    set_dimmer_level n x w = (Return (data v.2), w') /\
    commands (network (self w'))
    = commands (network (self w)) ++ [NodeSetDimmer (node_id node) (value_id v.2) x].
Proof.
  unfold _lookup_node, bind, get_self, logger, ret. cbn [fst snd self with_proc].
  intros [= Hh] Hr Hd Hv.
  unfold set_dimmer_level, _lookup_node. do 3 step. cbn [ret self with_proc].
  rewrite Hh, Hr. cbn [negb]. unfold _is_dimmer. do 2 step.
  cbn [ret self with_proc]. rewrite Hd. cbn [negb].
  change (labels_xref "level") with "Level". rewrite Hv.
  unfold bind at 1.
  assert (exists w1, when (bool_decide (1 < length (v :: rest))%nat)
                          (logger WARNING
                             "Node {}: get_values(Temperature) returned more than one value!?"
                             [AInt (node_id node)])
                          (with_proc
                             (fun p => {| started := started p;
                                          log := log p ++ [{| level := DEBUG; fmt := "nodes: {}";
                                                              args := [ANodes (nodes (network (self w)))] |}];
                                          stdout := stdout p; clock := clock p;
                                          clock_reads := clock_reads p;
                                          sleeps := sleeps p |}) w)
                     = (Return tt, w1) /\
                     commands (network (self w1)) = commands (network (self w)))
    as (w1 & -> & C1).
  { case_bool_decide; eexists; (split; [reflexivity|done]). }
  rewrite (comprehension_total raw (fun kv => data kv.2)) by done.
  rewrite (comprehension_total (fun kv => Return (value_id kv.2))
             (fun kv => value_id kv.2)) by done.
  unfold bind, lift, driver, modify_self, ret. cbn [fst snd].
  eexists. split; [reflexivity|]. cbn. by rewrite C1.
Qed.

Lemma set_dimmer_level_sends_one_command_witness :
  (_lookup_node 4 mixed_world).1 = Return (Some dimmer4) /\
  is_ready dimmer4 = true /\
  (set_dimmer_level 4 (PyInt 10) mixed_world).1 = Return (PyInt 99) /\
  commands (network (self (set_dimmer_level 4 (PyInt 10) mixed_world).2))
  = [NodeSetDimmer 4 31 (PyInt 10)].
Proof.
  assert (H : (_lookup_node 4 mixed_world).1 = Return (Some dimmer4))
    by (vm_compute; reflexivity).
  split; [exact H|]. split; [reflexivity|].
  destruct (set_dimmer_level_sends_one_command 4 (PyInt 10) mixed_world dimmer4
              (31, a_value 31 "Level" "" (PyInt 99) 38 false) [] H)
    as (w' & E & C); try reflexivity.
  rewrite E. cbn [fst snd]. rewrite C. split; reflexivity.
Defined.

(** X26: [set_dimmer_level] sends a command only when it succeeds: a
    call that raises, for whatever reason, has sent nothing to the
    driver, and a call that returns has sent one command, for the node
    asked for. *)
Theorem set_dimmer_level_commands (n : Z) (x : pyval) (w : world) :
  exists o w',
    set_dimmer_level n x w = (o, w') /\
    ((exists e, o = Raise e /\
        commands (network (self w')) = commands (network (self w))) \/
     (exists r vid, o = Return r /\
        commands (network (self w'))
        = commands (network (self w)) ++ [NodeSetDimmer n vid x])).
Proof.
  assert (forall node,
            head (filter (fun node => node_id node = n)
                         (dict_values (nodes (network (self w))))) = Some node ->
            node_id node = n) as Hhead.
  { intros node H. apply head_Some_elem_of, list_elem_of_filter in H. by destruct H. }
  unfold set_dimmer_level, _lookup_node. do 3 step. cbn [ret self with_proc fst].
  destruct (head _) as [node|];
    [|eexists _, _; split; [reflexivity|]; left; by eexists].
  pose proof (Hhead node eq_refl) as Hid.
  destruct (is_ready node); cbn [negb];
    [|eexists _, _; split; [reflexivity|]; left; by eexists].
  unfold _is_dimmer. do 2 step. cbn [ret self with_proc].
  destruct (re_dimmer _ _); cbn [negb];
    [|eexists _, _; split; [reflexivity|]; left; by eexists].
  destruct (get_values node _ _ _ _ _) as [|v rest];
    [eexists _, _; split; [reflexivity|]; left; by eexists|].
  rewrite (comprehension_total raw (fun kv => data kv.2)) by done.
  rewrite (comprehension_total (fun kv => Return (value_id kv.2))
             (fun kv => value_id kv.2)) by done.
  unfold bind at 1.
  case_bool_decide; cbn; eexists _, _; (split; [reflexivity|]); right;
    eexists _, _; rewrite Hid; done.
Qed.

(** ** Conversions *)

(** X27: [f_to_c] raises [TypeError] exactly on the values that are not
    numbers; on a float it never raises, and on an integer or a boolean it
    either returns a float or raises [OverflowError]. *)
Theorem f_to_c_errors (v : pyval) :
  ((exists m, f_to_c v = Raise (TypeError m)) <-> as_num v = None) /\
  (forall x, v = PyFloat x -> f_to_c v = Return (PyFloat ((x - 32) * 5 / 9)%float)) /\
  (forall z, as_num v = Some (inl z) ->
     (exists y, f_to_c v = Return (PyFloat y)) \/
     (exists m, f_to_c v = Raise (OverflowError m))).
Proof.
  assert (forall z, (exists y, int_truediv ((z - 32) * 5) 9 = Return (PyFloat y)) \/
                    (exists m, int_truediv ((z - 32) * 5) 9 = Raise (OverflowError m)))
    as Hint.
  { intros z. unfold int_truediv. cbn [Z.eqb].
    destruct (PrimFloat.is_infinity _); [right|left]; by eexists. }
  split; [|split].
  - split.
    + intros [m H]. destruct v as [|b|z|x| | | |]; try done.
      * destruct (Hint (Z.b2z b)) as [[y Hy]|[m' Hy]];
          change (f_to_c (PyBool b)) with (int_truediv ((Z.b2z b - 32) * 5) 9) in H;
          congruence.
      * destruct (Hint z) as [[y Hy]|[m' Hy]]; rewrite f_to_c_int in H; congruence.
    + intros H. destruct v; try done; by eexists.
  - intros x ->. apply f_to_c_float.
  - intros z H. destruct v as [|b|z'|x| | | |]; try done.
    + injection H as <-. apply (Hint (Z.b2z b)).
    + injection H as <-. apply Hint.
Qed.

Section DictItems.
Context {K V : Type} `{EqDecision K}.
Implicit Types (d : list (K * V)).

Lemma elem_of_dict_set d k v kv :
  kv ∈ dict_set k v d -> kv.2 = v \/ kv ∈ d.
Proof.
  induction d as [|[k' v'] d IH]; cbn.
  - intros ->%list_elem_of_singleton. by left.
  - destruct (decide (k = k')).
    + intros [->|H]%elem_of_cons; [by left|]. right. by right.
    + intros [->|H]%elem_of_cons; [right; by left|].
      destruct (IH H); [by left|]. right. by right.
Qed.

(** The values of a dictionary built from items are values of the items. *)
Lemma elem_of_dict_of_items (items : list (K * V)) kv :
  kv ∈ dict_of_items items -> exists kv', kv' ∈ items /\ kv'.2 = kv.2.
Proof.
  unfold dict_of_items.
  assert (forall acc,
            kv ∈ foldl (fun d kv => dict_set kv.1 kv.2 d) acc items ->
            kv ∈ acc \/ exists kv', kv' ∈ items /\ kv'.2 = kv.2) as H.
  { induction items as [|x items IH]; intros acc Hin; [by left|].
    cbn in Hin. destruct (IH _ Hin) as [Hacc|(kv' & Hkv' & E)].
    - destruct (elem_of_dict_set _ _ _ _ Hacc) as [E|Hacc']; [|by left].
      right. exists x. split; [by left|done].
    - right. exists kv'. split; [by right|done]. }
  intros Hin. destruct (H [] Hin) as [Hnil|Hex]; [|done].
  by apply elem_of_nil in Hnil.
Qed.
End DictItems.

(** X28: what [json_prepare] returns for a node has no set among its
    values: where [to_dict] has a set, the result has the tuple of its
    elements, and every other value is passed as it is; when [to_dict]
    has no key twice the result has its entries in the same order. *)
Theorem json_prepare_has_no_set (node : ZWaveNode) :
  exists d,
    json_prepare node = PyDict d /\
    (forall k v, (k, v) ∈ d -> forall l, v <> PySet l) /\
    (dict_wf (to_dict node) ->
     d = (fun i => (i.1, match i.2 with PySet l => PyTuple l | v => v end))
         <$> to_dict node).
Proof.
  eexists. split; [reflexivity|]. split.
  - intros k v Hin l ->.
    apply elem_of_dict_of_items in Hin as ([k' v'] & Hin & E).
    apply list_elem_of_fmap in Hin as ([k'' v''] & [= -> ->] & _).
    cbn in E. by destruct v''.
  - intros Hwf. apply dict_of_items_wf. unfold dict_wf, dict_keys in *.
    by rewrite <- list_fmap_compose.
Qed.

(** ** Name and location *)

(** Changing an object does not change which node a lookup finds. *)
Lemma head_filter_update (o : positive) (f : ZWaveNode -> ZWaveNode) (n : Z)
    (l : list (Z * ZWaveNode)) :
  (forall x, node_id (f x) = node_id x) ->
  head (filter (fun node => node_id node = n)
               (dict_values (map (fun kv => (kv.1, update_object o f kv.2)) l)))
  = update_object o f <$> head (filter (fun node => node_id node = n) (dict_values l)).
Proof.
  intros Hf. unfold dict_values. induction l as [|[k x] l IH]; [done|].
  cbn [map fmap list_fmap snd]. rewrite !filter_cons.
  assert (node_id (update_object o f x) = node_id x) as E.
  { unfold update_object. by destruct (decide _). }
  rewrite E. destruct (decide (node_id x = n)); [done|]. apply IH.
Qed.

(** The state [set_node_location] and [set_node_name] leave for a node
    that exists. *)
Lemma assign_lookup (n n' : Z) (f : ZWaveNode -> ZWaveNode) (w : world)
    (node : ZWaveNode) :
  (forall x, node_id (f x) = node_id x) ->
  (_lookup_node n w).1 = Return (Some node) ->
  (_lookup_node n' (assign (obj node) f (_lookup_node n w).2).2).1
  = Return (update_object (obj node) f <$> (head (filter (fun x => node_id x = n')
                                   (dict_values (nodes (network (self w))))))).
Proof.
  intros Hf _. unfold _lookup_node, assign, bind, get_self, logger, modify_self, ret.
  cbn [fst snd self with_self with_proc network with_network with_node_added
       with_node_removed nodes with_nodes].
  by rewrite head_filter_update.
Qed.

(** X29: on a node that exists, [set_node_location] returns the location
    the node had, and from then on [get_node_location] returns the new
    one; the name of the node, the timestamps and the commands sent to
    the driver are as before, and so is the location of every node that
    is another object. *)
Theorem set_node_location_round_trip
    (n : Z) (v : string) (w : world) (node : ZWaveNode) :
  (_lookup_node n w).1 = Return (Some node) ->
  exists w',
    set_node_location n v w = (Return (location node), w') /\
    (get_node_location n w').1 = Return v /\
    (get_node_name n w').1 = Return (name node) /\
    timestamps (self w') = timestamps (self w) /\
    commands (network (self w')) = commands (network (self w)) /\
    (forall n' other, (_lookup_node n' w).1 = Return (Some other) ->
       obj other <> obj node ->
       (get_node_location n' w').1 = Return (location other)).
Proof.
  intros H.
  assert (set_node_location n v w
          = (Return (location node),
             (assign (obj node) (with_location v) (_lookup_node n w).2).2)) as E.
  { revert H. unfold set_node_location, _lookup_node.
    unfold bind, get_self, logger, ret. cbn [fst snd self with_proc].
    by intros [= ->]. }
  eexists. split; [exact E|].
  assert (forall n', (get_node_location n'
                        (assign (obj node) (with_location v) (_lookup_node n w).2).2).1
                     = match (_lookup_node n'
                                (assign (obj node) (with_location v)
                                        (_lookup_node n w).2).2).1 with
                       | Return (Some x) => Return (location x)
                       | Return None => Raise (RuntimeError "No such node")
                       | Raise e => Raise e
                       end) as Hget.
  { intros n'. unfold get_node_location, bind.
    destruct (_lookup_node n' _) as [[[x|]|e] w1]; reflexivity. }
  assert (head (filter (fun x => node_id x = n)
                       (dict_values (nodes (network (self w))))) = Some node) as Hh.
  { revert H. unfold _lookup_node, bind, get_self, logger, ret.
    cbn [fst snd self with_proc]. by intros [= ->]. }
  split; [|split; [|split; [|split]]].
  - rewrite Hget, (assign_lookup n n (with_location v) w node) by done.
    rewrite Hh. cbn. unfold update_object. by rewrite decide_True.
  - assert (forall w0, (get_node_name n w0).1
                       = match (_lookup_node n w0).1 with
                         | Return (Some x) => Return (name x)
                         | Return None => Raise (RuntimeError "No such node")
                         | Raise e => Raise e
                         end) as Hname.
    { intros w0. unfold get_node_name, bind.
      destruct (_lookup_node n w0) as [[[x|]|e] w1]; reflexivity. }
    rewrite Hname, (assign_lookup n n (with_location v) w node) by done.
    rewrite Hh. cbn. unfold update_object. by rewrite decide_True.
  - reflexivity.
  - reflexivity.
  - intros n' other Ho Hne.
    rewrite Hget, (assign_lookup n n' (with_location v) w node) by done.
    assert (head (filter (fun x => node_id x = n')
                         (dict_values (nodes (network (self w))))) = Some other) as ->.
    { revert Ho. unfold _lookup_node, bind, get_self, logger, ret.
      cbn [fst snd self with_proc]. by intros [= ->]. }
    cbn. unfold update_object. by rewrite decide_False.
Qed.

Lemma set_node_location_round_trip_witness :
  (_lookup_node 2 history_world).1 = Return (Some sensor2) /\
  (set_node_location 2 "Attic" history_world).1 = Return "Lab" /\
  (get_node_location 2 (set_node_location 2 "Attic" history_world).2).1
  = Return "Attic" /\
  (get_node_location 3 (set_node_location 2 "Attic" history_world).2).1
  = Return "Lab".
Proof.
  assert (H : (_lookup_node 2 history_world).1 = Return (Some sensor2))
    by (vm_compute; reflexivity).
  split; [exact H|].
  destruct (set_node_location_round_trip 2 "Attic" history_world sensor2 H)
    as (w' & E & G & _ & _ & _ & O).
  rewrite E. cbn [fst snd]. split; [reflexivity|]. split; [exact G|].
  apply (O 3 dimmer3); [vm_compute; reflexivity|]. cbn. lia.
Defined.

(** X30: the same for the name: [set_node_name] returns the name the
    node had, [get_node_name] then returns the new one, and the location
    of the node is as before. *)
Theorem set_node_name_round_trip
    (n : Z) (v : string) (w : world) (node : ZWaveNode) :
  (_lookup_node n w).1 = Return (Some node) ->
  exists w',
    set_node_name n v w = (Return (name node), w') /\
    (get_node_name n w').1 = Return v /\
    (get_node_location n w').1 = Return (location node) /\
    commands (network (self w')) = commands (network (self w)).
Proof.
  intros H.
  assert (set_node_name n v w
          = (Return (name node),
             (assign (obj node) (with_name v) (_lookup_node n w).2).2)) as E.
  { revert H. unfold set_node_name, _lookup_node.
    unfold bind, get_self, logger, ret. cbn [fst snd self with_proc].
    by intros [= ->]. }
  eexists. split; [exact E|].
  assert (head (filter (fun x => node_id x = n)
                       (dict_values (nodes (network (self w))))) = Some node) as Hh.
  { revert H. unfold _lookup_node, bind, get_self, logger, ret.
    cbn [fst snd self with_proc]. by intros [= ->]. }
  pose proof (assign_lookup n n (with_name v) w node ltac:(done) H) as Hl.
  rewrite Hh in Hl. cbn [fmap option_fmap option_map] in Hl.
  unfold update_object in Hl. rewrite decide_True in Hl by done.
  split; [|split; [|reflexivity]].
  - unfold get_node_name, bind.
    destruct (_lookup_node n (assign _ _ _).2) as [o w1]. cbn [fst] in Hl.
    by rewrite Hl.
  - unfold get_node_location, bind.
    destruct (_lookup_node n (assign _ _ _).2) as [o w1]. cbn [fst] in Hl.
    by rewrite Hl.
Qed.

Lemma set_node_name_round_trip_witness :
  (_lookup_node 3 history_world).1 = Return (Some dimmer3) /\
  (set_node_name 3 "Desk lamp" history_world).1 = Return "" /\
  (get_node_name 3 (set_node_name 3 "Desk lamp" history_world).2).1
  = Return "Desk lamp".
Proof.
  assert (H : (_lookup_node 3 history_world).1 = Return (Some dimmer3))
    by (vm_compute; reflexivity).
  split; [exact H|].
  destruct (set_node_name_round_trip 3 "Desk lamp" history_world dimmer3 H)
    as (w' & E & G & _).
  rewrite E. cbn [fst snd]. split; [reflexivity|exact G].
Defined.
